(** * secret_gitlab_trigger: a shallow embedding and its properties

    The module [secret_gitlab_trigger/__init__.py] is a Cloud Function that
    reacts to Secret Manager audit events and triggers a GitLab pipeline when
    the secret carries the required labels.

    Conventions of the embedding.
    - A Python [str] is a [string]: the sequence of the bytes of its UTF-8
      encoding.  Splitting on an ASCII separator, joining, comparing and
      percent-encoding act on those bytes exactly as they act on the text.
    - A Python [dict] with string keys and string values is a
      [gmap string string]; the value [json.loads] returns is a [pyval].
    - Effects ([print], the Secret Manager client, [requests.post]) are
      recorded in a trace, and an exception is the left summand of the
      result. *)

From Stdlib Require Import String Ascii List ZArith Bool Lia.
From stdpp Require Import base option list strings gmap fin_maps.

(** ** Python string and list primitives used by the module *)

Module Py.

(** [s.split(sep)] for a separator of one character. The result is never
    empty: [''.split('/') == ['']]. *)
Fixpoint split (sep : ascii) (s : string) : list string :=
  match s with
  | EmptyString => [EmptyString]
  | String c rest =>
      if Ascii.eqb c sep then EmptyString :: split sep rest
      else match split sep rest with
           | [] => [String c EmptyString]
           | w :: ws => String c w :: ws
           end
  end.

(** [sep.join(parts)] *)
Fixpoint join (sep : string) (parts : list string) : string :=
  match parts with
  | [] => EmptyString
  | [w] => w
  | w :: ws => w +:+ sep +:+ join sep ws
  end.

(** [parts.index(x)]: the position of the first element equal to [x];
    [None] where Python raises [ValueError], which is exactly when
    [x in parts] is false. *)
Fixpoint index (x : string) (parts : list string) : option nat :=
  match parts with
  | [] => None
  | w :: ws => if String.eqb w x then Some 0 else S <$> index x ws
  end.

(** [x in parts] *)
Definition contains (x : string) (parts : list string) : bool :=
  bool_decide (x ∈ parts).

(** [parts[-1]] of a list that is known to be non-empty. *)
Definition last_item (parts : list string) : string := List.last parts EmptyString.

(** [c in s] for a character. *)
Fixpoint occurs (c : ascii) (s : string) : bool :=
  match s with
  | EmptyString => false
  | String d rest => Ascii.eqb d c || occurs c rest
  end.

End Py.

(** ** [urllib.parse.quote(s, safe="")] *)

Module Urllib.

Definition in_range (lo hi : N) (c : ascii) : bool :=
  let n := N_of_ascii c in (N.leb lo n && N.leb n hi)%bool.

(** The characters [quote] never escapes: letters, digits and [_.-~]. *)
Definition always_safe (c : ascii) : bool :=
  in_range 65 90 c || in_range 97 122 c || in_range 48 57 c
  || Ascii.eqb c "_" || Ascii.eqb c "." || Ascii.eqb c "-" || Ascii.eqb c "~".

Definition hex_digit (n : N) : ascii :=
  if N.ltb n 10 then ascii_of_N (48 + n) else ascii_of_N (55 + n).

(** [%XX] with upper-case hexadecimal digits. *)
Definition escape (c : ascii) : string :=
  let n := N_of_ascii c in
  String "%" (String (hex_digit (N.div n 16)) (String (hex_digit (N.modulo n 16)) EmptyString)).

Fixpoint quote (s : string) : string :=
  match s with
  | EmptyString => EmptyString
  | String c rest =>
      (if always_safe c then String c EmptyString else escape c) +:+ quote rest
  end.

End Urllib.

(** ** The pure helpers of the module *)

(** [get_event_type]: the lookup table and [mapping.get(method_name, "UNKNOWN")]. *)
Definition event_type_mapping : gmap string string :=
  {[ "AddSecretVersion" := "CREATE";
     "EnableSecretVersion" := "ENABLE";
     "DisableSecretVersion" := "DISABLE";
     "DestroySecretVersion" := "DESTROY" ]}.

Definition get_event_type (method_name : string) : string :=
  default "UNKNOWN" (event_type_mapping !! method_name).

(** [extract_secret_name] *)
Definition extract_secret_name (resource_name : string) : string :=
  let parts := Py.split "/" resource_name in
  if Py.contains "secrets" parts then
    match Py.index "secrets" parts with
    | Some secret_idx =>
        if (secret_idx + 1 <? length parts)%nat
        then default resource_name (parts !! (secret_idx + 1)%nat)
        else resource_name
    | None => resource_name
    end
  else resource_name.

(** [get_secret_resource_path] *)
Definition get_secret_resource_path (resource_name : string) : string :=
  let parts := Py.split "/" resource_name in
  if Py.contains "versions" parts then
    match Py.index "versions" parts with
    | Some version_idx => Py.join "/" (take version_idx parts)
    | None => resource_name
    end
  else resource_name.


(** ** Python values, exceptions and effects *)

(** What [json.loads] and [response.json()] return. A dictionary is the list
    of its items in iteration order. *)
#[warnings="-register-all"]
Inductive pyval : Type :=
| PyNone
| PyBool (b : bool)
| PyInt (n : Z)
| PyFloat (literal : string)
| PyStr (s : string)
| PyList (elems : list pyval)
| PyDict (items : list (string * pyval)).

(** The exceptions the handler can meet, by the class the [except] clauses
    test: [requests.exceptions.RequestException] and its subclasses,
    [AttributeError], any other [Exception], and what derives from
    [BaseException] only. *)
Inductive exn : Type :=
| RequestException (detail : string)
| AttributeError (detail : string)
| OtherException (detail : string)
| BaseExceptionOnly (detail : string).

Definition is_Exception (e : exn) : bool :=
  match e with BaseExceptionOnly _ => false | _ => true end.

Definition is_RequestException (e : exn) : bool :=
  match e with RequestException _ => true | _ => false end.

(** One constructor for each [print] of the module, with the values it formats. *)
Inductive log_line : Type :=
| LogFetchError (e : exn)
| LogReceived (method_name resource_name : string)
| LogMissingEnv
| LogInvalidRequiredLabels (required_labels_json : string)
| LogLabels (secret_labels : gmap string string) (required_labels : pyval)
| LogSkipping (secret_resource_path : string)
| LogTriggering (variables : gmap string string)
| LogTriggered (web_url : pyval)
| LogTriggerError (e : exn).

Inductive effect : Type :=
| Log (line : log_line)
| NewSecretManagerClient
| GetSecret (name : string)
| Post (url : string) (data : gmap string string) (timeout : Z).

(** The object [requests.post] returns, as far as the module uses it. *)
Record response : Type := {
  raise_for_status : option exn;
  json : exn + pyval
}.

(** Everything outside the module that an invocation depends on. *)
Record World : Type := {
  environ : gmap string string;
  (** [json.loads]; [None] is [json.JSONDecodeError]. *)
  json_loads : string -> option pyval;
  (** [secretmanager.SecretManagerServiceClient()]; [Some e] when it raises. *)
  client_failure : option exn;
  (** [client.get_secret(request={"name": name}).labels]; [None] for a
      [labels] attribute that is [None]. *)
  get_secret : string -> exn + option (gmap string string);
  (** [requests.post(url, data=payload, timeout=t)] *)
  requests_post : string -> gmap string string -> Z -> exn + response
}.

(** A computation: the effects performed, then an exception or a value. *)
Definition M (A : Type) : Type := (list effect * (exn + A))%type.

Definition ret {A} (a : A) : M A := ([], inr a).
Definition raise {A} (e : exn) : M A := ([], inl e).
Definition bind {A B} (m : M A) (k : A -> M B) : M B :=
  match m with
  | (t, inl e) => (t, inl e)
  | (t, inr a) => (t ++ fst (k a), snd (k a))
  end.
Definition perform {A} (eff : effect) (r : exn + A) : M A := ([eff], r).
Definition print (line : log_line) : M unit := perform (Log line) (inr tt).

(** [try: m  except <class> as e: handler(e); raise] *)
Definition try_reraise {A} (caught : exn -> bool) (m : M A) (handler : exn -> M unit) : M A :=
  match m with
  | (t, inl e) =>
      if caught e then
        (t ++ fst (handler e),
         inl (match snd (handler e) with inl e' => e' | inr _ => e end))
      else (t, inl e)
  | (t, inr a) => (t, inr a)
  end.

Declare Scope py_scope.
Delimit Scope py_scope with py.
Notation "x <- m ;; k" := (bind m (fun x => k))
  (at level 100, m at next level, k at level 200, right associativity) : py_scope.
Notation "m ;;; k" := (bind m (fun _ => k))
  (at level 100, k at level 200, right associativity) : py_scope.
Local Open Scope py_scope.

Definition trace_of {A} (m : M A) : list effect := fst m.
Definition outcome {A} (m : M A) : exn + A := snd m.

(** The requests sent to the trigger endpoint, and the secrets looked up. *)
Definition posts (t : list effect) : list (string * gmap string string * Z) :=
  omap (fun eff => match eff with Post u d tm => Some (u, d, tm) | _ => None end) t.
Definition lookups (t : list effect) : list string :=
  omap (fun eff => match eff with GetSecret n => Some n | _ => None end) t.

(** ** The event the platform delivers

    [cloud_event.data] has the shape of an audit-log entry; the handler reads
    every field with [.get] and a default, so each field may be absent. *)

Record AuthenticationInfo : Type := { principalEmail : option string }.

Record ProtoPayload : Type := {
  methodName : option string;
  resourceName : option string;
  authenticationInfo : option AuthenticationInfo
}.

Record CloudEvent : Type := { protoPayload : option ProtoPayload }.

(** The empty dictionaries used as defaults of [.get]. *)
Definition no_payload : ProtoPayload :=
  {| methodName := None; resourceName := None; authenticationInfo := None |}.
Definition no_authentication : AuthenticationInfo := {| principalEmail := None |}.

(** ** [check_required_labels] *)

(** [secret_labels.get(key) != value]: [.get] gives [None] for a missing key,
    the labels of a secret are strings, and a string equals only the same
    string. *)
Definition get_differs (got : option string) (value : pyval) : bool :=
  match got, value with
  | None, PyNone => false
  | Some s, PyStr s' => negb (String.eqb s s')
  | _, _ => true
  end.

(** The loop over [required_labels.items()], with its early [return False]. *)
Fixpoint check_items (secret_labels : gmap string string) (items : list (string * pyval)) : bool :=
  match items with
  | [] => true
  | (key, value) :: rest =>
      if get_differs (secret_labels !! key) value then false
      else check_items secret_labels rest
  end.

(** Only a dictionary has [.items()]. *)
Definition check_required_labels (secret_labels : gmap string string) (required_labels : pyval)
  : exn + bool :=
  match required_labels with
  | PyDict items => inr (check_items secret_labels items)
  | _ => inl (AttributeError "items")
  end.

(** [d.get(key, default)] on a value that may not be a dictionary. *)
Fixpoint assoc (key : string) (items : list (string * pyval)) : option pyval :=
  match items with
  | [] => None
  | (k, v) :: rest => if String.eqb k key then Some v else assoc key rest
  end.

Definition py_get (d : pyval) (key : string) (dflt : pyval) : exn + pyval :=
  match d with
  | PyDict items => inr (default dflt (assoc key items))
  | _ => inl (AttributeError "get")
  end.

(** [not v] for the value of [os.environ.get(name)]. *)
Definition falsy (v : option string) : bool :=
  match v with
  | None => true
  | Some s => String.eqb s ""
  end.

(** The string a value of [os.environ.get] is once it passed the truth test. *)
Definition the_str (v : option string) : string := default "" v.

(** The field name [f"variables[{key}]"]. *)
Definition variables_field (key : string) : string := "variables[" +:+ key +:+ "]".

Section Program.

Variable w : World.

(** [get_secret_labels] *)
Definition get_secret_labels (secret_name : string) : M (gmap string string) :=
  perform NewSecretManagerClient
    (match client_failure w with Some e => inl e | None => inr tt end) ;;;
  try_reraise is_Exception
    (labels <- perform (GetSecret secret_name) (get_secret w secret_name) ;;
     ret (match labels with
          | Some l => if bool_decide (l = ∅) then ∅ else l
          | None => ∅
          end))
    (fun e => print (LogFetchError e)).

(** [trigger_gitlab_pipeline] *)
Definition trigger_payload (trigger_token ref : string) (variables : gmap string string)
  : gmap string string :=
  map_fold (fun key value payload => <[variables_field key := value]> payload)
           ({[ "token" := trigger_token; "ref" := ref ]} : gmap string string)
           variables.

Definition trigger_url (gitlab_url project_id : string) : string :=
  let encoded_project := Urllib.quote project_id in
  gitlab_url +:+ "/api/v4/projects/" +:+ encoded_project +:+ "/trigger/pipeline".

Definition trigger_gitlab_pipeline
    (gitlab_url project_id trigger_token ref : string) (variables : gmap string string)
  : M pyval :=
  let url := trigger_url gitlab_url project_id in
  let payload := trigger_payload trigger_token ref variables in
  response <- perform (Post url payload 30) (requests_post w url payload 30) ;;
  (match raise_for_status response with Some e => raise e | None => ret tt end) ;;;
  ([], json response).

(** [handle_secret_event] *)
Definition handle_secret_event (cloud_event : CloudEvent) : M unit :=
  let proto_payload := default no_payload (protoPayload cloud_event) in
  let method_name := Py.last_item (Py.split "." (default "" (methodName proto_payload))) in
  let resource_name := default "" (resourceName proto_payload) in
  let caller_email :=
    default "unknown"
      (principalEmail (default no_authentication (authenticationInfo proto_payload))) in
  print (LogReceived method_name resource_name) ;;;
  let gitlab_url := default "https://gitlab.com" (environ w !! "GITLAB_URL") in
  let gitlab_project_id := environ w !! "GITLAB_PROJECT_ID" in
  let gitlab_ref := default "main" (environ w !! "GITLAB_REF") in
  let trigger_token := environ w !! "GITLAB_TRIGGER_TOKEN" in
  let required_labels_json := default "{}" (environ w !! "REQUIRED_LABELS") in
  let project_id := environ w !! "GCP_PROJECT_ID" in
  if falsy gitlab_project_id || falsy trigger_token then
    print LogMissingEnv
  else
    required_labels <-
      match json_loads w required_labels_json with
      | Some v => ret v
      | None => print (LogInvalidRequiredLabels required_labels_json) ;;; ret (PyDict [])
      end ;;
    let secret_resource_path := get_secret_resource_path resource_name in
    secret_labels <- get_secret_labels secret_resource_path ;;
    print (LogLabels secret_labels required_labels) ;;;
    matched <- ([], check_required_labels secret_labels required_labels) ;;
    if negb matched then
      print (LogSkipping secret_resource_path)
    else
      let event_type := get_event_type method_name in
      let secret_name := extract_secret_name resource_name in
      let variables : gmap string string :=
        {[ "SECRET_EVENT_TYPE" := event_type;
           "SECRET_NAME" := secret_name;
           "SECRET_RESOURCE" := resource_name;
           "GCP_PROJECT_ID" := (if falsy project_id then "" else the_str project_id);
           "TRIGGERED_BY" := caller_email ]} in
      print (LogTriggering variables) ;;;
      try_reraise is_RequestException
        (result <- trigger_gitlab_pipeline gitlab_url (the_str gitlab_project_id)
                     (the_str trigger_token) gitlab_ref variables ;;
         web_url <- ([], py_get result "web_url" (PyStr "N/A")) ;;
         print (LogTriggered web_url))
        (fun e => print (LogTriggerError e)).

(** [cloud_function], the decorated entry point. *)
Definition cloud_function (cloud_event : CloudEvent) : M unit :=
  handle_secret_event cloud_event.

End Program.

(** ** The phases of an invocation

    Names for the values and steps of [handle_secret_event], used to state
    what each branch of the handler does. *)

Section Invocation.

Variable w : World.
Variable cloud_event : CloudEvent.

(** The values the handler binds before its first test. *)
Definition event_method_name : string :=
  Py.last_item
    (Py.split "." (default "" (methodName (default no_payload (protoPayload cloud_event))))).
Definition event_resource_name : string :=
  default "" (resourceName (default no_payload (protoPayload cloud_event))).
Definition event_caller_email : string :=
  default "unknown"
    (principalEmail
       (default no_authentication
          (authenticationInfo (default no_payload (protoPayload cloud_event))))).
Definition required_labels_json : string := default "{}" (environ w !! "REQUIRED_LABELS").

(** The configuration guard: both values are present and not empty. *)
Definition configured : bool :=
  negb (falsy (environ w !! "GITLAB_PROJECT_ID") || falsy (environ w !! "GITLAB_TRIGGER_TOKEN")).

(** The policy the handler checks, and what parsing it prints. *)
Definition required_labels_used : pyval :=
  default (PyDict []) (json_loads w required_labels_json).
Definition parse_trace : list effect :=
  match json_loads w required_labels_json with
  | Some _ => []
  | None => [Log (LogInvalidRequiredLabels required_labels_json)]
  end.

Definition secret_resource_path : string := get_secret_resource_path event_resource_name.

(** The lookup the handler performs after the guard. *)
Definition label_lookup : M (gmap string string) := get_secret_labels w secret_resource_path.

(** The variables of the pipeline and the guarded call of the trigger client. *)
Definition pipeline_variables : gmap string string :=
  {[ "SECRET_EVENT_TYPE" := get_event_type event_method_name;
     "SECRET_NAME" := extract_secret_name event_resource_name;
     "SECRET_RESOURCE" := event_resource_name;
     "GCP_PROJECT_ID" := (if falsy (environ w !! "GCP_PROJECT_ID") then ""
                          else the_str (environ w !! "GCP_PROJECT_ID"));
     "TRIGGERED_BY" := event_caller_email ]}.

Definition trigger_step : M unit :=
  try_reraise is_RequestException
    (bind (trigger_gitlab_pipeline w
             (default "https://gitlab.com" (environ w !! "GITLAB_URL"))
             (the_str (environ w !! "GITLAB_PROJECT_ID"))
             (the_str (environ w !! "GITLAB_TRIGGER_TOKEN"))
             (default "main" (environ w !! "GITLAB_REF"))
             pipeline_variables)
       (fun result =>
          bind ([], py_get result "web_url" (PyStr "N/A"))
               (fun web_url => print (LogTriggered web_url))))
    (fun e => print (LogTriggerError e)).

Definition received : effect := Log (LogReceived event_method_name event_resource_name).

End Invocation.

(** The top-level fields of the form. *)
Definition top_level_fields (trigger_token ref : string) : gmap string string :=
  {[ "token" := trigger_token; "ref" := ref ]}.

(** The same world with [REQUIRED_LABELS] set to [s]. *)
Definition with_required_labels (s : string) (w : World) : World :=
  {| environ := <["REQUIRED_LABELS" := s]> (environ w);
     json_loads := json_loads w;
     client_failure := client_failure w;
     get_secret := get_secret w;
     requests_post := requests_post w |}.



(** ** Worlds for the scenarios of the test suite *)

Module Scenario.

Definition quote_mark : string := String (ascii_of_nat 34) EmptyString.

(** The documents the scenarios configure, and what [json.loads] makes of
    them; [invalid-json] and every other text used here is not JSON. *)
Definition application_n8n : string :=
  "{" +:+ quote_mark +:+ "application" +:+ quote_mark +:+ ": "
      +:+ quote_mark +:+ "n8n" +:+ quote_mark +:+ "}".
Definition a_null : string := "{" +:+ quote_mark +:+ "a" +:+ quote_mark +:+ ": null}".

Definition loads (s : string) : option pyval :=
  if decide (s = "{}") then Some (PyDict [])
  else if decide (s = application_n8n) then Some (PyDict [("application", PyStr "n8n")])
  else if decide (s = a_null) then Some (PyDict [("a", PyNone)])
  else None.

(** The mocked store and trigger endpoint of the tests. *)
Definition store_returns (labels : gmap string string) (name : string)
  : exn + option (gmap string string) := inr (Some labels).
Definition store_raises (e : exn) (name : string) : exn + option (gmap string string) := inl e.
Definition pipeline_created (url : string) (data : gmap string string) (timeout : Z)
  : exn + response :=
  inr {| raise_for_status := None;
         json := inr (PyDict [("web_url", PyStr "https://gitlab.com/pipelines/1")]) |}.

Definition world (env : gmap string string)
    (store : string -> exn + option (gmap string string)) : World :=
  {| environ := env; json_loads := loads; client_failure := None;
     get_secret := store; requests_post := pipeline_created |}.

Definition env_with (required_labels : string) : gmap string string :=
  {[ "GITLAB_PROJECT_ID" := "group/project";
     "GITLAB_TRIGGER_TOKEN" := "token";
     "REQUIRED_LABELS" := required_labels;
     "GCP_PROJECT_ID" := "my-project" ]}.

Definition event (method_name resource_name : string) : CloudEvent :=
  {| protoPayload :=
       Some {| methodName :=
                 Some ("google.cloud.secretmanager.v1.SecretManagerService." +:+ method_name);
               resourceName := Some resource_name;
               authenticationInfo := Some {| principalEmail := Some "user@example.com" |} |} |}.

Definition add_version : CloudEvent :=
  event "AddSecretVersion" "projects/my-project/secrets/my-secret/versions/1".

End Scenario.

(** ** Names used in the statements about the whole module *)

(** [isinstance(v, dict)] *)
Definition is_dict (v : pyval) : bool :=
  match v with PyDict _ => true | _ => false end.

(** The line printed when the trigger client raised. *)
Definition is_trigger_error_log (eff : effect) : bool :=
  match eff with
  | Log (LogTriggerError _) => true
  | _ => false
  end.

(** The line printed when the label lookup raised. *)
Definition is_fetch_error_log (eff : effect) : bool :=
  match eff with
  | Log (LogFetchError _) => true
  | _ => false
  end.

(** The call of the trigger client the handler makes once the gate is passed. *)
Definition trigger_call (w : World) (cloud_event : CloudEvent) : M pyval :=
  trigger_gitlab_pipeline w
    (default "https://gitlab.com" (environ w !! "GITLAB_URL"))
    (the_str (environ w !! "GITLAB_PROJECT_ID"))
    (the_str (environ w !! "GITLAB_TRIGGER_TOKEN"))
    (default "main" (environ w !! "GITLAB_REF"))
    (pipeline_variables w cloud_event).

(** The request that call sends. *)
Definition trigger_request (w : World) (cloud_event : CloudEvent)
  : string * gmap string string * Z :=
  (trigger_url (default "https://gitlab.com" (environ w !! "GITLAB_URL"))
               (the_str (environ w !! "GITLAB_PROJECT_ID")),
   trigger_payload (the_str (environ w !! "GITLAB_TRIGGER_TOKEN"))
                   (default "main" (environ w !! "GITLAB_REF"))
                   (pipeline_variables w cloud_event),
   30%Z).

(** Whether [quote] leaves every character of [s] as it is. *)
Fixpoint all_always_safe (s : string) : bool :=
  match s with
  | EmptyString => true
  | String c rest => Urllib.always_safe c && all_always_safe rest
  end.

(** * Properties *)

(** ** Facts about the string primitives *)

Module PyFacts.
Import Py.

Lemma append_nil (b : string) : "" +:+ b = b.
Proof. reflexivity. Qed.

Lemma append_cons ch (a b : string) : String ch a +:+ b = String ch (a +:+ b).
Proof. reflexivity. Qed.

Lemma append_assoc (a b c : string) : (a +:+ b) +:+ c = a +:+ (b +:+ c).
Proof.
  induction a as [|ch a IH]; [reflexivity|].
  rewrite !append_cons, IH. reflexivity.
Qed.

Lemma append_empty_r (a : string) : a +:+ "" = a.
Proof.
  induction a as [|ch a IH]; [reflexivity|].
  rewrite append_cons, IH. reflexivity.
Qed.

Lemma split_nonempty sep s : split sep s <> [].
Proof.
  destruct s as [|c s]; simpl; [discriminate|].
  destruct (Ascii.eqb c sep); [discriminate|].
  destruct (split sep s); discriminate.
Qed.

(** A string without the separator is one segment. *)
Lemma split_no_sep sep s : occurs sep s = false -> split sep s = [s].
Proof.
  induction s as [|c s IH]; simpl; [reflexivity|].
  intros [Hc Hs]%orb_false_iff. rewrite Hc, (IH Hs). reflexivity.
Qed.

(** Splitting distributes over a separator written between two strings. *)
Lemma split_app_sep sep a b :
  split sep (a +:+ String sep b) = split sep a ++ split sep b.
Proof.
  induction a as [|c a IH]; [rewrite append_nil|rewrite append_cons]; simpl.
  - rewrite Ascii.eqb_refl. reflexivity.
  - destruct (Ascii.eqb c sep); simpl.
    + rewrite IH. reflexivity.
    + rewrite IH. pose proof (split_nonempty sep a) as Hne.
      destruct (split sep a); [congruence|reflexivity].
Qed.

(** No segment contains the separator. *)
Lemma split_segments_no_sep sep s seg : seg ∈ split sep s -> occurs sep seg = false.
Proof.
  revert seg. induction s as [|c s IH]; simpl; intros seg Hin.
  - apply list_elem_of_singleton in Hin. subst. reflexivity.
  - destruct (Ascii.eqb c sep) eqn:Hc.
    + apply elem_of_cons in Hin as [->|Hin]; [reflexivity|auto].
    + pose proof (split_nonempty sep s) as Hne.
      destruct (split sep s) as [|seg0 segs]; [congruence|].
      apply elem_of_cons in Hin as [->|Hin].
      * simpl. rewrite Hc. apply IH. left.
      * apply IH. right. exact Hin.
Qed.

(** Joining the segments with the separator gives the string back. *)
Lemma join_split sep s : join (String sep EmptyString) (split sep s) = s.
Proof.
  induction s as [|c s IH]; simpl; [reflexivity|].
  destruct (Ascii.eqb c sep) eqn:Hc.
  - apply Ascii.eqb_eq in Hc. subst c.
    pose proof (split_nonempty sep s) as Hne.
    destruct (split sep s); [congruence|]. simpl in *. rewrite IH. reflexivity.
  - pose proof (split_nonempty sep s) as Hne.
    destruct (split sep s) as [|seg0 [|seg1 segs]]; [congruence| |]; simpl in *;
      rewrite <- IH; reflexivity.
Qed.

Lemma join_app_cons sep pre x rest :
  join sep (pre ++ x :: rest) =
  match pre with
  | [] => join sep (x :: rest)
  | _ => join sep pre +:+ sep +:+ join sep (x :: rest)
  end.
Proof.
  destruct pre as [|seg0 pre]; [reflexivity|].
  revert seg0. induction pre as [|seg1 pre IH]; intros seg0.
  - reflexivity.
  - change (join sep ((seg0 :: seg1 :: pre) ++ x :: rest))
      with (seg0 +:+ sep +:+ join sep ((seg1 :: pre) ++ x :: rest)).
    rewrite IH.
    change (join sep (seg0 :: seg1 :: pre)) with (seg0 +:+ sep +:+ join sep (seg1 :: pre)).
    rewrite !append_assoc. reflexivity.
Qed.

Lemma index_None x parts : index x parts = None <-> x ∉ parts.
Proof.
  induction parts as [|seg parts IH]; simpl.
  - split; [intros _; apply not_elem_of_nil|reflexivity].
  - rewrite not_elem_of_cons. destruct (String.eqb seg x) eqn:Heq.
    + apply String.eqb_eq in Heq. split; [discriminate|]. intros [Hne _]. congruence.
    + apply String.eqb_neq in Heq. destruct (index x parts) as [j|]; simpl.
      * split; [discriminate|]. intros [_ Hn]. apply IH in Hn. discriminate.
      * split; [|reflexivity]. intros _. split; [congruence|]. apply IH. reflexivity.
Qed.

(** [index] finds the first occurrence. *)
Lemma index_first x pre rest :
  x ∉ pre -> index x (pre ++ x :: rest) = Some (length pre).
Proof.
  induction pre as [|seg pre IH]; simpl; intros Hn.
  - rewrite String.eqb_refl. reflexivity.
  - apply not_elem_of_cons in Hn as [Hne Hn].
    assert (String.eqb seg x = false) as -> by (apply String.eqb_neq; congruence).
    rewrite (IH Hn). reflexivity.
Qed.

Lemma index_Some x parts i :
  index x parts = Some i ->
  exists pre rest, parts = pre ++ x :: rest /\ (x ∉ pre) /\ length pre = i.
Proof.
  revert i. induction parts as [|seg parts IH]; simpl; intros i Hi; [discriminate|].
  destruct (String.eqb seg x) eqn:Heq.
  - apply String.eqb_eq in Heq. injection Hi as <-. subst seg.
    exists [], parts. split; [reflexivity|]. split; [apply not_elem_of_nil|reflexivity].
  - apply String.eqb_neq in Heq.
    destruct (index x parts) as [j|] eqn:Hj; simpl in Hi; [|discriminate].
    injection Hi as <-. destruct (IH j eq_refl) as (pre & rest & -> & Hn & Hlen).
    exists (seg :: pre), rest. split; [reflexivity|]. split.
    + apply not_elem_of_cons. split; [congruence|exact Hn].
    + simpl. congruence.
Qed.

Lemma contains_true x parts : contains x parts = true <-> x ∈ parts.
Proof. unfold contains. apply bool_decide_eq_true. Qed.

Lemma contains_false x parts : contains x parts = false <-> x ∉ parts.
Proof. unfold contains. apply bool_decide_eq_false. Qed.

End PyFacts.

(** ** The event-type classifier *)

(** C6. [get_event_type] is total and realises the closed table: the four
    audit method names map to [CREATE], [ENABLE], [DISABLE] and [DESTROY], and
    every other string, the empty one included, maps to [UNKNOWN]. The match
    is on the exact string: a name in another case, with a blank or with its
    dotted prefix is not recognised. *)
Theorem get_event_type_closed_mapping (method_name : string) :
  get_event_type method_name =
    (if decide (method_name = "AddSecretVersion") then "CREATE"
     else if decide (method_name = "EnableSecretVersion") then "ENABLE"
     else if decide (method_name = "DisableSecretVersion") then "DISABLE"
     else if decide (method_name = "DestroySecretVersion") then "DESTROY"
     else "UNKNOWN")
  /\ get_event_type "AddSecretVersion" = "CREATE"
  /\ get_event_type "EnableSecretVersion" = "ENABLE"
  /\ get_event_type "DisableSecretVersion" = "DISABLE"
  /\ get_event_type "DestroySecretVersion" = "DESTROY"
  /\ get_event_type "" = "UNKNOWN"
  /\ get_event_type "addsecretversion" = "UNKNOWN"
  /\ get_event_type "AddSecretVersion " = "UNKNOWN"
  /\ get_event_type "SecretManagerService.AddSecretVersion" = "UNKNOWN".
Proof.
  assert (forall m, get_event_type m =
    (if decide (m = "AddSecretVersion") then "CREATE"
     else if decide (m = "EnableSecretVersion") then "ENABLE"
     else if decide (m = "DisableSecretVersion") then "DISABLE"
     else if decide (m = "DestroySecretVersion") then "DESTROY"
     else "UNKNOWN")) as Htable.
  { intros m. unfold get_event_type, event_type_mapping.
    rewrite !lookup_insert, lookup_singleton.
    repeat (case_decide; [subst; repeat case_decide; try congruence; reflexivity|]).
    repeat case_decide; try congruence; reflexivity. }
  split; [apply Htable|].
  repeat split; rewrite Htable; reflexivity.
Qed.

(** ** The resource-path helpers *)

Section ResourcePaths.
Import Py PyFacts.

Lemma extract_secret_name_absent r :
  "secrets" ∉ split "/" r -> extract_secret_name r = r.
Proof.
  intros Hn. unfold extract_secret_name.
  apply contains_false in Hn. rewrite Hn. reflexivity.
Qed.

Lemma extract_secret_name_following r pre x rest :
  split "/" r = pre ++ "secrets" :: x :: rest -> "secrets" ∉ pre ->
  extract_secret_name r = x.
Proof.
  intros Hparts Hn. unfold extract_secret_name. rewrite Hparts.
  assert (contains "secrets" (pre ++ "secrets" :: x :: rest) = true) as ->.
  { apply contains_true. apply elem_of_app. right. left. }
  rewrite (index_first _ _ _ Hn).
  assert ((length pre + 1 <? length (pre ++ "secrets" :: x :: rest))%nat = true) as ->.
  { apply Nat.ltb_lt. rewrite length_app. simpl. lia. }
  rewrite lookup_app_r by lia.
  replace (length pre + 1 - length pre)%nat with 1%nat by lia. reflexivity.
Qed.

Lemma extract_secret_name_last r pre :
  split "/" r = pre ++ ["secrets"] -> "secrets" ∉ pre ->
  extract_secret_name r = r.
Proof.
  intros Hparts Hn. unfold extract_secret_name. rewrite Hparts.
  rewrite (index_first _ _ _ Hn).
  assert ((length pre + 1 <? length (pre ++ ["secrets"]))%nat = false) as ->.
  { apply Nat.ltb_ge. rewrite length_app. simpl. lia. }
  destruct (contains _ _); reflexivity.
Qed.

(** The segments of [projects/<p>/secrets/<tail>]. *)
Lemma split_secret_path p tail :
  split "/" ("projects/" +:+ p +:+ "/secrets/" +:+ tail)
  = ("projects" :: split "/" p) ++ "secrets" :: split "/" tail.
Proof.
  change ("projects/" +:+ p +:+ "/secrets/" +:+ tail)
    with ("projects" +:+ String "/" (p +:+ String "/" ("secrets" +:+ String "/" tail))).
  rewrite !split_app_sep. reflexivity.
Qed.

Lemma get_secret_resource_path_absent r :
  "versions" ∉ split "/" r -> get_secret_resource_path r = r.
Proof.
  intros Hn. unfold get_secret_resource_path.
  apply contains_false in Hn. rewrite Hn. reflexivity.
Qed.

Lemma get_secret_resource_path_present r pre rest :
  split "/" r = pre ++ "versions" :: rest -> "versions" ∉ pre ->
  get_secret_resource_path r = join "/" pre.
Proof.
  intros Hparts Hn. unfold get_secret_resource_path. rewrite Hparts.
  assert (contains "versions" (pre ++ "versions" :: rest) = true) as ->.
  { apply contains_true. apply elem_of_app. right. left. }
  rewrite (index_first _ _ _ Hn), take_app_length. reflexivity.
Qed.

End ResourcePaths.

(** C9. [get_secret_resource_path] splits the path on [/].  When no segment
    is [versions] the path is returned unchanged; otherwise the result is the
    segments before the first [versions], joined again, and the path is that
    result followed by [/versions...] (or begins with [versions] when the
    result is empty).  The empty path is returned unchanged. *)
Theorem get_secret_resource_path_strips_version (resource_name : string) :
  ((("versions" ∉ Py.split "/" resource_name)
    /\ get_secret_resource_path resource_name = resource_name)
   \/ (exists pre rest,
         Py.split "/" resource_name = pre ++ "versions" :: rest
         /\ ("versions" ∉ pre)
         /\ get_secret_resource_path resource_name = Py.join "/" pre
         /\ resource_name =
              get_secret_resource_path resource_name
              +:+ (match pre with [] => "" | _ => "/" end)
              +:+ Py.join "/" ("versions" :: rest)))
  /\ get_secret_resource_path "" = ""
  /\ get_secret_resource_path "projects/p/secrets/s/versions/1" = "projects/p/secrets/s"
  /\ get_secret_resource_path "projects/p/secrets/s" = "projects/p/secrets/s".
Proof.
  split; [|repeat split; vm_compute; reflexivity].
  destruct (Py.index "versions" (Py.split "/" resource_name)) as [i|] eqn:Hi.
  - right. apply PyFacts.index_Some in Hi as (pre & rest & Hparts & Hn & _).
    exists pre, rest. rewrite (get_secret_resource_path_present _ _ _ Hparts Hn).
    repeat split; try assumption.
    rewrite <- (PyFacts.join_split "/" resource_name) at 1.
    rewrite Hparts, PyFacts.join_app_cons.
    destruct pre; reflexivity.
  - left. apply PyFacts.index_None in Hi. split; [exact Hi|].
    apply get_secret_resource_path_absent, Hi.
Qed.

(** What [extract_secret_name] computes. It splits the path on [/] and
    takes the first segment equal to [secrets]: with none the path is
    returned unchanged, with a segment after it that segment is returned, and
    when it is the last segment the path is returned unchanged.  So for every
    [p] with no segment equal to [secrets] and every [s] without [/], the
    path [projects/p/secrets/s], with or without a [/versions/...] suffix,
    gives [s]; the empty path gives the empty string. *)
Theorem extract_secret_name_first_secrets_segment (p s : string) :
  "secrets" ∉ Py.split "/" p ->
  Py.occurs "/" s = false ->
  (forall r,
      (("secrets" ∉ Py.split "/" r) /\ extract_secret_name r = r)
      \/ (exists pre, Py.split "/" r = pre ++ ["secrets"]
                      /\ ("secrets" ∉ pre) /\ extract_secret_name r = r)
      \/ (exists pre x rest, Py.split "/" r = pre ++ "secrets" :: x :: rest
                      /\ ("secrets" ∉ pre) /\ extract_secret_name r = x))
  /\ extract_secret_name ("projects/" +:+ p +:+ "/secrets/" +:+ s) = s
  /\ (forall version,
        extract_secret_name
          ("projects/" +:+ p +:+ "/secrets/" +:+ s +:+ "/versions/" +:+ version) = s)
  /\ extract_secret_name "" = "".
Proof.
  intros Hp Hs.
  assert ("secrets" ∉ "projects" :: Py.split "/" p) as Hpre.
  { apply not_elem_of_cons. split; [discriminate|exact Hp]. }
  split; [|split; [|split]].
  - intros r. destruct (Py.index "secrets" (Py.split "/" r)) as [i|] eqn:Hi.
    + right. apply PyFacts.index_Some in Hi as (pre & rest & Hparts & Hn & _).
      destruct rest as [|x rest].
      * left. exists pre. eauto using extract_secret_name_last.
      * right. exists pre, x, rest. eauto using extract_secret_name_following.
    + left. apply PyFacts.index_None in Hi. eauto using extract_secret_name_absent.
  - apply (extract_secret_name_following _ ("projects" :: Py.split "/" p) s []);
      [|exact Hpre].
    rewrite split_secret_path, (PyFacts.split_no_sep _ _ Hs). reflexivity.
  - intros version.
    apply (extract_secret_name_following _ ("projects" :: Py.split "/" p) s
             (Py.split "/" ("versions/" +:+ version))); [|exact Hpre].
    rewrite split_secret_path.
    change (s +:+ "/versions/" +:+ version)
      with (s +:+ String "/" ("versions/" +:+ version)).
    rewrite PyFacts.split_app_sep, (PyFacts.split_no_sep _ _ Hs). reflexivity.
  - reflexivity.
Qed.

Lemma extract_secret_name_first_secrets_segment_witness :
  extract_secret_name ("projects/" +:+ "my-project" +:+ "/secrets/" +:+ "my-secret")
    = "my-secret"
  /\ extract_secret_name
       ("projects/" +:+ "my-project" +:+ "/secrets/" +:+ "my-secret" +:+ "/versions/" +:+ "1")
     = "my-secret".
Proof.
  assert ("secrets" ∉ Py.split "/" "my-project") as Hp.
  { vm_compute. intros Hin. apply list_elem_of_singleton in Hin. discriminate. }
  destruct (extract_secret_name_first_secrets_segment "my-project" "my-secret" Hp eq_refl)
    as (_ & Hplain & Hversion & _).
  split; [exact Hplain|exact (Hversion "1")].
Defined.

(** C8, at the input where the code leaves the specification. The path
    [projects/secrets/secrets/s] has the documented format
    [projects/PROJECT/secrets/SECRET_NAME], with the project [secrets] and
    the secret [s].  [parts.index("secrets")] finds the project segment, so
    the function returns [secrets], the segment after it, and not the short
    name [s] of the secret. *)
Lemma extract_secret_name_project_named_secrets :
  Py.occurs "/" "s" = false
  /\ extract_secret_name ("projects/" +:+ "secrets" +:+ "/secrets/" +:+ "s") = "secrets"
  /\ extract_secret_name ("projects/" +:+ "secrets" +:+ "/secrets/" +:+ "s") <> "s".
Proof. repeat split. vm_compute. discriminate. Qed.

(** ** The trigger request *)

Section TriggerRequest.
Import Py PyFacts.

Lemma occurs_app c a b : occurs c (a +:+ b) = occurs c a || occurs c b.
Proof.
  induction a as [|d a IH]; [reflexivity|].
  rewrite append_cons. simpl. rewrite IH. apply orb_assoc.
Qed.

(** What [quote] writes for one character holds no [/]. *)
Lemma quote_char_no_slash (c : ascii) :
  occurs "/" (if Urllib.always_safe c then String c EmptyString else Urllib.escape c) = false.
Proof. destruct c as [[] [] [] [] [] [] [] []]; vm_compute; reflexivity. Qed.

Lemma quote_no_slash (s : string) : occurs "/" (Urllib.quote s) = false.
Proof.
  induction s as [|c s IH]; [reflexivity|].
  simpl. rewrite occurs_app, quote_char_no_slash, IH. reflexivity.
Qed.

Lemma variables_field_cons (key : string) :
  variables_field key = String "v" ("ariables[" +:+ key +:+ "]").
Proof. reflexivity. Qed.

Lemma append_bracket_inj (a b : string) : a +:+ "]" = b +:+ "]" -> a = b.
Proof.
  revert b. induction a as [|c a IH]; intros [|d b] Heq.
  - reflexivity.
  - rewrite append_nil, append_cons in Heq. injection Heq as _ Heq.
    destruct b; discriminate.
  - rewrite append_nil, append_cons in Heq. injection Heq as _ Heq.
    destruct a; discriminate.
  - rewrite !append_cons in Heq. injection Heq as -> Heq. f_equal. auto.
Qed.

#[global] Instance variables_field_inj : Inj (=) (=) variables_field.
Proof.
  intros a b Heq. unfold variables_field in Heq.
  apply (inj (String.append "variables[")) in Heq.
  apply append_bracket_inj, Heq.
Qed.

Lemma variables_field_not_token key : variables_field key <> "token".
Proof. rewrite variables_field_cons. discriminate. Qed.

Lemma variables_field_not_ref key : variables_field key <> "ref".
Proof. rewrite variables_field_cons. discriminate. Qed.


Lemma top_level_fields_variable trigger_token ref key :
  top_level_fields trigger_token ref !! variables_field key = None.
Proof.
  unfold top_level_fields.
  rewrite lookup_insert_ne by (apply not_eq_sym, variables_field_not_token).
  apply lookup_singleton_ne, not_eq_sym, variables_field_not_ref.
Qed.

(** The loop over [variables.items()] leaves the two top-level fields and one
    field for each variable. *)
Lemma trigger_payload_union trigger_token ref (variables : gmap string string) :
  trigger_payload trigger_token ref variables
    = kmap variables_field variables ∪ top_level_fields trigger_token ref
  /\ size (trigger_payload trigger_token ref variables) = (2 + size variables)%nat.
Proof.
  unfold trigger_payload. fold (top_level_fields trigger_token ref).
  apply (map_fold_weak_ind
           (fun (r : gmap string string) (m : gmap string string) =>
              r = kmap variables_field m ∪ top_level_fields trigger_token ref
              /\ size r = (2 + size m)%nat)).
  - split.
    + rewrite kmap_empty, (left_id_L ∅ (∪)). reflexivity.
    + rewrite map_size_empty. reflexivity.
  - intros key value m r Hfresh [-> Hsize]. split.
    + rewrite kmap_insert by apply _. rewrite insert_union_l. reflexivity.
    + rewrite !map_size_insert_None, Hsize; [reflexivity|exact Hfresh|].
      apply lookup_union_None. split; [|apply top_level_fields_variable].
      rewrite lookup_kmap by apply _. exact Hfresh.
Qed.

End TriggerRequest.

(** C7. Whatever the world answers, [trigger_gitlab_pipeline] sends one
    request.  Its URL is the base URL, the fixed path and the project
    identifier percent-encoded by [quote], which holds no [/]; its form has
    the fields [token] and [ref], one field [variables[k]] with value [v] for
    each entry [(k, v)] of the variables, and no other field. *)
Theorem trigger_gitlab_pipeline_request
    (w : World) (gitlab_url project_id trigger_token ref : string)
    (variables : gmap string string) :
  exists payload : gmap string string,
    posts (trace_of (trigger_gitlab_pipeline w gitlab_url project_id trigger_token ref variables))
      = [(gitlab_url +:+ "/api/v4/projects/" +:+ Urllib.quote project_id +:+ "/trigger/pipeline",
          payload, 30%Z)]
    /\ Py.occurs "/" (Urllib.quote project_id) = false
    /\ Urllib.quote "group/subgroup/project" = "group%2Fsubgroup%2Fproject"
    /\ payload !! "token" = Some trigger_token
    /\ payload !! "ref" = Some ref
    /\ (forall k v, payload !! variables_field k = Some v <-> variables !! k = Some v)
    /\ (forall field v, payload !! field = Some v ->
          (field = "token" /\ v = trigger_token)
          \/ (field = "ref" /\ v = ref)
          \/ (exists k, field = variables_field k /\ variables !! k = Some v))
    /\ size payload = (2 + size variables)%nat.
Proof.
  exists (trigger_payload trigger_token ref variables).
  destruct (trigger_payload_union trigger_token ref variables) as [Hunion Hsize].
  assert (forall k, trigger_payload trigger_token ref variables !! variables_field k
                    = variables !! k) as Hvar.
  { intros k. rewrite Hunion, lookup_union, top_level_fields_variable.
    rewrite lookup_kmap by apply _. destruct (variables !! k); reflexivity. }
  assert (forall field, (kmap variables_field variables : gmap string string) !! field = None
            -> trigger_payload trigger_token ref variables !! field
               = top_level_fields trigger_token ref !! field) as Htop.
  { intros field Hnone. rewrite Hunion, lookup_union, Hnone.
    destruct (top_level_fields trigger_token ref !! field); reflexivity. }
  assert (forall field, field = "token" \/ field = "ref" ->
            (kmap variables_field variables : gmap string string) !! field = None) as Hnone.
  { intros field Hfield. apply lookup_kmap_None; [apply _|].
    intros k ->. exfalso.
    destruct Hfield as [Hf|Hf];
      [exact (variables_field_not_token _ Hf)|exact (variables_field_not_ref _ Hf)]. }
  repeat split.
  - unfold trigger_gitlab_pipeline, trace_of, bind, perform.
    fold (trigger_url gitlab_url project_id).
    destruct (requests_post w _ _ _) as [e|resp]; [reflexivity|].
    simpl. destruct (raise_for_status resp); reflexivity.
  - apply quote_no_slash.
  - rewrite Htop by (apply Hnone; left; reflexivity). reflexivity.
  - rewrite Htop by (apply Hnone; right; reflexivity). reflexivity.
  - rewrite Hvar. auto.
  - rewrite Hvar. auto.
  - intros field v Hfield. rewrite Hunion in Hfield.
    apply lookup_union_Some_raw in Hfield as [Hk|[_ Htopf]].
    + right. right. apply lookup_kmap_Some in Hk as (k & -> & Hk); [eauto|apply _].
    + unfold top_level_fields in Htopf.
      apply lookup_insert_Some in Htopf as [[<- <-]|[_ Href]]; [left; auto|].
      apply lookup_singleton_Some in Href as [<- <-]. right. left. auto.
  - exact Hsize.
Qed.

(** ** The handler, branch by branch *)

Section Handler.

Variable w : World.
Variable cloud_event : CloudEvent.

Lemma handle_not_configured :
  configured w = false ->
  handle_secret_event w cloud_event = ([received cloud_event; Log LogMissingEnv], inr tt).
Proof.
  unfold configured, handle_secret_event. intros Hguard%negb_false_iff.
  rewrite Hguard. reflexivity.
Qed.

Lemma handle_lookup_raises t e :
  configured w = true -> label_lookup w cloud_event = (t, inl e) ->
  handle_secret_event w cloud_event = (received cloud_event :: parse_trace w ++ t, inl e).
Proof.
  unfold configured, label_lookup, secret_resource_path, handle_secret_event.
  intros Hguard%negb_true_iff Hlookup. rewrite Hguard.
  unfold parse_trace, required_labels_json, event_resource_name in *.
  destruct (json_loads w _); simpl; rewrite Hlookup; reflexivity.
Qed.

Lemma handle_check_raises t labels e :
  configured w = true -> label_lookup w cloud_event = (t, inr labels) ->
  check_required_labels labels (required_labels_used w) = inl e ->
  handle_secret_event w cloud_event
    = (received cloud_event :: parse_trace w ++ t
         ++ [Log (LogLabels labels (required_labels_used w))], inl e).
Proof.
  unfold configured, label_lookup, secret_resource_path, handle_secret_event.
  intros Hguard%negb_true_iff Hlookup Hcheck. rewrite Hguard.
  unfold parse_trace, required_labels_used, required_labels_json, event_resource_name in *.
  destruct (json_loads w _); simpl in Hcheck; simpl; rewrite Hlookup; simpl;
    first [discriminate | rewrite Hcheck | idtac];
    simpl; rewrite ?app_nil_r; reflexivity.
Qed.

Lemma handle_gate_fails t labels :
  configured w = true -> label_lookup w cloud_event = (t, inr labels) ->
  check_required_labels labels (required_labels_used w) = inr false ->
  handle_secret_event w cloud_event
    = (received cloud_event :: parse_trace w ++ t
         ++ [Log (LogLabels labels (required_labels_used w));
             Log (LogSkipping (secret_resource_path cloud_event))], inr tt).
Proof.
  unfold configured, label_lookup, secret_resource_path, handle_secret_event.
  intros Hguard%negb_true_iff Hlookup Hcheck. rewrite Hguard.
  unfold parse_trace, required_labels_used, required_labels_json, event_resource_name in *.
  destruct (json_loads w _); simpl in Hcheck; simpl; rewrite Hlookup; simpl;
    first [discriminate | rewrite Hcheck | idtac];
    simpl; rewrite ?app_nil_r; reflexivity.
Qed.

Lemma handle_gate_passes t labels :
  configured w = true -> label_lookup w cloud_event = (t, inr labels) ->
  check_required_labels labels (required_labels_used w) = inr true ->
  handle_secret_event w cloud_event
    = (received cloud_event :: parse_trace w ++ t
         ++ [Log (LogLabels labels (required_labels_used w));
             Log (LogTriggering (pipeline_variables w cloud_event))]
         ++ trace_of (trigger_step w cloud_event),
       outcome (trigger_step w cloud_event)).
Proof.
  unfold configured, label_lookup, secret_resource_path, handle_secret_event.
  intros Hguard%negb_true_iff Hlookup Hcheck. rewrite Hguard.
  unfold parse_trace, required_labels_used, required_labels_json, event_resource_name in *.
  destruct (json_loads w _); simpl in Hcheck; simpl; rewrite Hlookup; simpl;
    first [discriminate | rewrite Hcheck | idtac];
    simpl; rewrite ?app_nil_r; reflexivity.
Qed.

End Handler.

(** ** The two boundary calls *)

Section BoundaryCalls.

Variable w : World.

(** The label lookup, case by case: the client cannot be built, the request
    raises, or the secret is found. *)
Lemma get_secret_labels_no_client name e :
  client_failure w = Some e ->
  get_secret_labels w name = ([NewSecretManagerClient], inl e).
Proof. unfold get_secret_labels. intros ->. reflexivity. Qed.

Lemma get_secret_labels_raises name e :
  client_failure w = None -> get_secret w name = inl e ->
  get_secret_labels w name
    = ([NewSecretManagerClient; GetSecret name]
         ++ (if is_Exception e then [Log (LogFetchError e)] else []),
       inl e).
Proof.
  unfold get_secret_labels. intros -> Hget. simpl. rewrite Hget. simpl.
  destruct (is_Exception e); reflexivity.
Qed.

Lemma get_secret_labels_found name labels :
  client_failure w = None -> get_secret w name = inr labels ->
  get_secret_labels w name
    = ([NewSecretManagerClient; GetSecret name],
       inr (match labels with
            | Some l => if bool_decide (l = ∅) then ∅ else l
            | None => ∅
            end)).
Proof. unfold get_secret_labels. intros -> Hget. simpl. rewrite Hget. reflexivity. Qed.

(** The lookup returns only what the store returned. *)
Lemma get_secret_labels_returns name t labels :
  get_secret_labels w name = (t, inr labels) ->
  t = [NewSecretManagerClient; GetSecret name]
  /\ exists stored, get_secret w name = inr stored /\ labels = default ∅ stored.
Proof.
  destruct (client_failure w) as [e|] eqn:Hclient.
  - rewrite (get_secret_labels_no_client _ _ Hclient). discriminate.
  - destruct (get_secret w name) as [e|stored] eqn:Hget.
    + rewrite (get_secret_labels_raises _ _ Hclient Hget). discriminate.
    + rewrite (get_secret_labels_found _ _ Hclient Hget). intros [= <- <-].
      split; [reflexivity|]. exists stored. split; [reflexivity|].
      destruct stored as [l|]; [|reflexivity]. simpl. case_bool_decide; congruence.
Qed.

(** The lookup never reaches the trigger endpoint. *)
Lemma get_secret_labels_no_post name : posts (trace_of (get_secret_labels w name)) = [].
Proof.
  destruct (client_failure w) as [e|] eqn:Hclient.
  - rewrite (get_secret_labels_no_client _ _ Hclient). reflexivity.
  - destruct (get_secret w name) as [e|stored] eqn:Hget.
    + rewrite (get_secret_labels_raises _ _ Hclient Hget).
      destruct (is_Exception e); reflexivity.
    + rewrite (get_secret_labels_found _ _ Hclient Hget). reflexivity.
Qed.

Lemma posts_app t1 t2 : posts (t1 ++ t2) = posts t1 ++ posts t2.
Proof. unfold posts. apply omap_app. Qed.

Lemma lookups_app t1 t2 : lookups (t1 ++ t2) = lookups t1 ++ lookups t2.
Proof. unfold lookups. apply omap_app. Qed.

(** [try: ... except: print(...); raise] adds log lines only. *)
Lemma posts_try_reraise_print {A} caught (m : M A) (line : exn -> log_line) :
  posts (trace_of (try_reraise caught m (fun e => print (line e)))) = posts (trace_of m).
Proof.
  destruct m as [t [e|a]]; simpl; [|reflexivity].
  destruct (caught e); simpl; [|reflexivity].
  rewrite posts_app. simpl. apply app_nil_r.
Qed.

(** Once the gate is passed, the trigger client is called once, with the
    request of [trigger_gitlab_pipeline]. *)
Lemma trigger_step_posts cloud_event :
  posts (trace_of (trigger_step w cloud_event))
    = [(trigger_url (default "https://gitlab.com" (environ w !! "GITLAB_URL"))
                    (the_str (environ w !! "GITLAB_PROJECT_ID")),
        trigger_payload (the_str (environ w !! "GITLAB_TRIGGER_TOKEN"))
                        (default "main" (environ w !! "GITLAB_REF"))
                        (pipeline_variables w cloud_event),
        30%Z)].
Proof.
  unfold trigger_step. rewrite posts_try_reraise_print.
  unfold trigger_gitlab_pipeline, trace_of, bind, perform.
  destruct (requests_post w _ _ _) as [e|resp]; [reflexivity|].
  simpl. destruct (raise_for_status resp) as [e|]; simpl; [reflexivity|].
  destruct (json resp) as [e|result]; simpl; [reflexivity|].
  destruct (py_get result _ _); reflexivity.
Qed.

(** A successful answer with a dictionary body ends the invocation normally. *)
Lemma trigger_step_succeeds cloud_event resp items :
  requests_post w
    (trigger_url (default "https://gitlab.com" (environ w !! "GITLAB_URL"))
                 (the_str (environ w !! "GITLAB_PROJECT_ID")))
    (trigger_payload (the_str (environ w !! "GITLAB_TRIGGER_TOKEN"))
                     (default "main" (environ w !! "GITLAB_REF"))
                     (pipeline_variables w cloud_event))
    30%Z = inr resp ->
  raise_for_status resp = None -> json resp = inr (PyDict items) ->
  outcome (trigger_step w cloud_event) = inr tt.
Proof.
  intros Hpost Hstatus Hjson.
  unfold trigger_step, trigger_gitlab_pipeline.
  fold (trigger_url (default "https://gitlab.com" (environ w !! "GITLAB_URL"))
                    (the_str (environ w !! "GITLAB_PROJECT_ID"))).
  cbv zeta. unfold perform, bind at 1 2. rewrite Hpost. simpl.
  rewrite Hstatus. simpl. rewrite Hjson. reflexivity.
Qed.

End BoundaryCalls.


(** ** The configuration guard *)

Lemma absent_not_configured (w : World) :
  environ w !! "GITLAB_PROJECT_ID" = None \/ environ w !! "GITLAB_TRIGGER_TOKEN" = None ->
  configured w = false.
Proof.
  unfold configured. intros [-> | ->]; simpl; [reflexivity|].
  rewrite orb_true_r. reflexivity.
Qed.

Lemma empty_not_configured (w : World) :
  environ w !! "GITLAB_PROJECT_ID" = Some "" \/ environ w !! "GITLAB_TRIGGER_TOKEN" = Some "" ->
  configured w = false.
Proof.
  unfold configured. intros [-> | ->]; simpl; [reflexivity|].
  rewrite orb_true_r. reflexivity.
Qed.

(** C4. When [GITLAB_PROJECT_ID] or [GITLAB_TRIGGER_TOKEN] is absent from the
    configuration, the handler prints two lines and returns normally: it
    raises nothing, builds no Secret Manager client, looks no secret up and
    never calls the trigger client. *)
Theorem missing_configuration_aborts_silently (w : World) (cloud_event : CloudEvent) :
  environ w !! "GITLAB_PROJECT_ID" = None \/ environ w !! "GITLAB_TRIGGER_TOKEN" = None ->
  handle_secret_event w cloud_event
    = ([Log (LogReceived (event_method_name cloud_event) (event_resource_name cloud_event));
        Log LogMissingEnv], inr tt)
  /\ outcome (handle_secret_event w cloud_event) = inr tt
  /\ posts (trace_of (handle_secret_event w cloud_event)) = []
  /\ lookups (trace_of (handle_secret_event w cloud_event)) = []
  /\ (NewSecretManagerClient ∉ trace_of (handle_secret_event w cloud_event)).
Proof.
  intros Hguard%absent_not_configured.
  rewrite (handle_not_configured _ _ Hguard).
  repeat split. simpl. intros Hin.
  repeat (apply elem_of_cons in Hin as [Hin|Hin]; [discriminate|]).
  apply elem_of_nil in Hin. exact Hin.
Qed.

Lemma missing_configuration_aborts_silently_witness :
  outcome (handle_secret_event
             (Scenario.world {[ "GITLAB_PROJECT_ID" := "group/project" ]}
                             (Scenario.store_returns ∅))
             Scenario.add_version) = inr tt
  /\ posts (trace_of (handle_secret_event
             (Scenario.world {[ "GITLAB_PROJECT_ID" := "group/project" ]}
                             (Scenario.store_returns ∅))
             Scenario.add_version)) = [].
Proof.
  destruct (missing_configuration_aborts_silently
              (Scenario.world {[ "GITLAB_PROJECT_ID" := "group/project" ]}
                              (Scenario.store_returns ∅))
              Scenario.add_version) as (_ & Hout & Hposts & _).
  - right. vm_compute. reflexivity.
  - split; [exact Hout|exact Hposts].
Defined.

(** C10. A [GITLAB_PROJECT_ID] or [GITLAB_TRIGGER_TOKEN] that is present but
    empty is treated exactly like an absent one: the guard tests the truth
    value, so the invocation is the same two lines and normal return, with
    no lookup and no call of the trigger client. *)
Theorem empty_configuration_is_like_absent (w : World) (cloud_event : CloudEvent) :
  environ w !! "GITLAB_PROJECT_ID" = Some "" \/ environ w !! "GITLAB_TRIGGER_TOKEN" = Some "" ->
  handle_secret_event w cloud_event
    = ([Log (LogReceived (event_method_name cloud_event) (event_resource_name cloud_event));
        Log LogMissingEnv], inr tt)
  /\ (forall w' : World,
        environ w' !! "GITLAB_PROJECT_ID" = None \/ environ w' !! "GITLAB_TRIGGER_TOKEN" = None ->
        handle_secret_event w cloud_event = handle_secret_event w' cloud_event)
  /\ outcome (handle_secret_event w cloud_event) = inr tt
  /\ posts (trace_of (handle_secret_event w cloud_event)) = []
  /\ lookups (trace_of (handle_secret_event w cloud_event)) = [].
Proof.
  intros Hguard%empty_not_configured.
  split; [apply handle_not_configured, Hguard|]. split.
  - intros w' Habsent%absent_not_configured.
    rewrite !handle_not_configured by assumption. reflexivity.
  - rewrite (handle_not_configured _ _ Hguard). repeat split.
Qed.

Lemma empty_configuration_is_like_absent_witness :
  outcome (handle_secret_event
             (Scenario.world {[ "GITLAB_PROJECT_ID" := "group/project";
                                "GITLAB_TRIGGER_TOKEN" := "" ]}
                             (Scenario.store_returns ∅))
             Scenario.add_version) = inr tt
  /\ posts (trace_of (handle_secret_event
             (Scenario.world {[ "GITLAB_PROJECT_ID" := "group/project";
                                "GITLAB_TRIGGER_TOKEN" := "" ]}
                             (Scenario.store_returns ∅))
             Scenario.add_version)) = [].
Proof.
  destruct (empty_configuration_is_like_absent
              (Scenario.world {[ "GITLAB_PROJECT_ID" := "group/project";
                                 "GITLAB_TRIGGER_TOKEN" := "" ]}
                              (Scenario.store_returns ∅))
              Scenario.add_version) as (_ & _ & Hout & Hposts & _).
  - right. vm_compute. reflexivity.
  - split; [exact Hout|exact Hposts].
Defined.

(** ** Failures of the secret store *)

(** C3. In an invocation that reaches the label lookup (the configuration
    guard is passed) and in which the lookup fails, because the client cannot
    be built or because [get_secret] raises, [get_secret_labels] raises that
    exception again and the handler does not catch it: the invocation ends
    with the same exception instead of returning, and the trigger client is
    never called. *)
Theorem store_failure_propagates (w : World) (cloud_event : CloudEvent) (e : exn) :
  configured w = true ->
  client_failure w = Some e
  \/ (client_failure w = None /\ get_secret w (secret_resource_path cloud_event) = inl e) ->
  outcome (get_secret_labels w (secret_resource_path cloud_event)) = inl e
  /\ outcome (handle_secret_event w cloud_event) = inl e
  /\ outcome (handle_secret_event w cloud_event) <> inr tt
  /\ posts (trace_of (handle_secret_event w cloud_event)) = []
  /\ (NewSecretManagerClient ∈ trace_of (handle_secret_event w cloud_event)).
Proof.
  intros Hguard Hfails.
  assert (exists t, get_secret_labels w (secret_resource_path cloud_event) = (t, inl e)
                    /\ posts t = [] /\ NewSecretManagerClient ∈ t) as (t & Hlookup & Hposts & Hnew).
  { destruct Hfails as [Hclient|[Hclient Hget]].
    - rewrite (get_secret_labels_no_client _ _ _ Hclient).
      eexists. split; [reflexivity|]. split; [reflexivity|left].
    - rewrite (get_secret_labels_raises _ _ _ Hclient Hget).
      eexists. split; [reflexivity|]. split; [|left].
      destruct (is_Exception e); reflexivity. }
  rewrite (handle_lookup_raises _ _ _ _ Hguard Hlookup), Hlookup.
  repeat split; try discriminate.
  - simpl. change (received cloud_event :: parse_trace w ++ t)
      with ([received cloud_event] ++ parse_trace w ++ t).
    rewrite !posts_app, Hposts. unfold parse_trace.
    destruct (json_loads w _); reflexivity.
  - simpl. right. apply elem_of_app. right. exact Hnew.
Qed.

Lemma store_failure_propagates_witness :
  outcome (handle_secret_event
             (Scenario.world (Scenario.env_with "{}")
                (Scenario.store_raises (OtherException "Secret not found")))
             Scenario.add_version)
  = inl (OtherException "Secret not found").
Proof.
  destruct (store_failure_propagates
              (Scenario.world (Scenario.env_with "{}")
                 (Scenario.store_raises (OtherException "Secret not found")))
              Scenario.add_version (OtherException "Secret not found"))
    as (_ & Hout & _).
  - vm_compute. reflexivity.
  - right. split; reflexivity.
  - exact Hout.
Defined.

(** ** The label gate *)

Section LabelGate.

Variable secret_labels : gmap string string.

(** When [secret_labels.get(key) != value] is false: the key is there with
    the same string, or the key is missing and the required value is [None]. *)
Lemma get_differs_false key value :
  get_differs (secret_labels !! key) value = false
  <-> (exists s, secret_labels !! key = Some s /\ value = PyStr s)
      \/ (secret_labels !! key = None /\ value = PyNone).
Proof.
  destruct (secret_labels !! key) as [s|], value; simpl;
    try (split; [discriminate|intros [(s0 & Hs & Hv)|[Hs Hv]]; congruence]).
  - rewrite negb_false_iff, String.eqb_eq. split.
    + intros ->. left. eauto.
    + intros [(s1 & [= ->] & [= ->])|[Hs _]]; [reflexivity|discriminate].
  - split; [intros _; right; auto|reflexivity].
Qed.

(** The loop returns [True] exactly when no item differs. *)
Lemma check_items_true items :
  check_items secret_labels items = true
  <-> forall key value, (key, value) ∈ items ->
        get_differs (secret_labels !! key) value = false.
Proof.
  induction items as [|[k v] items IH]; simpl.
  - split; [|reflexivity]. intros _ key value Hin. apply elem_of_nil in Hin. contradiction.
  - destruct (get_differs (secret_labels !! k) v) eqn:Hd.
    + split; [discriminate|]. intros Hall.
      rewrite (Hall k v) in Hd by left. discriminate.
    + rewrite IH. split.
      * intros Hall key value [[= -> ->]|Hin]%elem_of_cons; auto.
      * intros Hall key value Hin. apply Hall. right. exact Hin.
Qed.

(** An empty policy is satisfied by every secret. *)
Lemma check_required_labels_empty :
  check_required_labels secret_labels (PyDict []) = inr true.
Proof. reflexivity. Qed.

(** For a policy whose required values are all strings, the gate is the
    predicate of the specification: every required key is present with
    exactly the required value. *)
Lemma check_required_labels_strings (required : list (string * string)) :
  check_required_labels secret_labels (PyDict (prod_map id PyStr <$> required)) = inr true
  <-> forall key value, (key, value) ∈ required -> secret_labels !! key = Some value.
Proof.
  simpl. split.
  - intros [= Hcheck] key value Hin. rewrite check_items_true in Hcheck.
    assert ((key, PyStr value) ∈ prod_map id PyStr <$> required) as Hitem.
    { apply list_elem_of_fmap. exists (key, value). split; [reflexivity|exact Hin]. }
    apply Hcheck, get_differs_false in Hitem as [(s & Hs & [= ->])|[_ [=]]]. exact Hs.
  - intros Hall. f_equal. apply check_items_true. intros key value Hin.
    apply list_elem_of_fmap in Hin as ([k v] & [= -> ->] & Hin).
    apply get_differs_false. left. eauto.
Qed.

End LabelGate.

(** C2, at the input where the code leaves the specification. The policy
    [{"a": None}], which [json.loads] builds from [{"a": null}], is accepted
    for a secret without any label: [{}.get("a")] is [None], and
    [None != None] is false, so the loop does not return [False]. The key [a]
    is missing from the labels, and the function answers [True]. *)
Theorem check_required_labels_accepts_missing_key_for_null :
  (∅ : gmap string string) !! "a" = None
  /\ check_required_labels ∅ (PyDict [("a", PyNone)]) = inr true
  /\ check_required_labels ∅ (PyDict [("a", PyStr "b")]) = inr false
  /\ check_required_labels {[ "a" := "b" ]} (PyDict [("a", PyNone)]) = inr false.
Proof. repeat split. Qed.

(** ** The gate in the handler *)

Section GatedDispatch.

Variable w : World.
Variable cloud_event : CloudEvent.

Lemma parse_trace_no_post : posts (parse_trace w) = [].
Proof. unfold parse_trace. destruct (json_loads w _); reflexivity. Qed.

(** A request reaches the trigger endpoint only in an invocation that passed
    the guard, fetched the labels and had [check_required_labels] return
    [True] on them and on the policy in use. *)
Lemma trigger_only_after_gate :
  posts (trace_of (handle_secret_event w cloud_event)) <> [] ->
  configured w = true
  /\ exists labels,
       outcome (label_lookup w cloud_event) = inr labels
       /\ check_required_labels labels (required_labels_used w) = inr true.
Proof.
  intros Hposts. destruct (configured w) eqn:Hguard.
  - split; [reflexivity|].
    destruct (label_lookup w cloud_event) as [t [e|labels]] eqn:Hlookup.
    + exfalso. apply Hposts.
      rewrite (handle_lookup_raises _ _ _ _ Hguard Hlookup). simpl.
      change (received cloud_event :: parse_trace w ++ t)
        with ([received cloud_event] ++ parse_trace w ++ t).
      rewrite !posts_app, parse_trace_no_post.
      pose proof (get_secret_labels_no_post w (secret_resource_path cloud_event)) as Hno.
      fold (label_lookup w cloud_event) in Hno. rewrite Hlookup in Hno. exact Hno.
    + exists labels. split; [reflexivity|].
      pose proof (get_secret_labels_no_post w (secret_resource_path cloud_event)) as Hno.
      fold (label_lookup w cloud_event) in Hno. rewrite Hlookup in Hno. simpl in Hno.
      destruct (check_required_labels labels (required_labels_used w)) as [e|[]] eqn:Hcheck;
        [exfalso; apply Hposts| reflexivity |exfalso; apply Hposts].
      * rewrite (handle_check_raises _ _ _ _ _ Hguard Hlookup Hcheck). simpl.
        change (received cloud_event :: ?rest) with ([received cloud_event] ++ rest).
        rewrite !posts_app, parse_trace_no_post, Hno. reflexivity.
      * rewrite (handle_gate_fails _ _ _ _ Hguard Hlookup Hcheck). simpl.
        change (received cloud_event :: ?rest) with ([received cloud_event] ++ rest).
        rewrite !posts_app, parse_trace_no_post, Hno. reflexivity.
  - exfalso. apply Hposts. rewrite (handle_not_configured _ _ Hguard). reflexivity.
Qed.

(** For a policy whose required values are all strings, a request reaches
    the trigger endpoint only when every required key is among the fetched
    labels with exactly the required value. *)
Lemma trigger_only_when_string_policy_matches (required : list (string * string)) :
  required_labels_used w = PyDict (prod_map id PyStr <$> required) ->
  posts (trace_of (handle_secret_event w cloud_event)) <> [] ->
  exists labels,
    outcome (label_lookup w cloud_event) = inr labels
    /\ forall key value, (key, value) ∈ required -> labels !! key = Some value.
Proof.
  intros Hpolicy Hposts.
  destruct (trigger_only_after_gate Hposts) as (_ & labels & Hlookup & Hcheck).
  exists labels. split; [exact Hlookup|].
  rewrite Hpolicy in Hcheck. apply check_required_labels_strings, Hcheck.
Qed.

(** When the gate answers [False] the handler prints that it skips the
    secret and returns normally, without calling the trigger client. *)
Lemma gate_failure_skips t labels :
  configured w = true -> label_lookup w cloud_event = (t, inr labels) ->
  check_required_labels labels (required_labels_used w) = inr false ->
  outcome (handle_secret_event w cloud_event) = inr tt
  /\ posts (trace_of (handle_secret_event w cloud_event)) = []
  /\ List.last (trace_of (handle_secret_event w cloud_event)) NewSecretManagerClient
     = Log (LogSkipping (secret_resource_path cloud_event)).
Proof.
  intros Hguard Hlookup Hcheck.
  rewrite (handle_gate_fails _ _ _ _ Hguard Hlookup Hcheck).
  unfold outcome, trace_of. cbn [fst snd].
  split; [reflexivity|]. split.
  - change (received cloud_event :: ?rest) with ([received cloud_event] ++ rest).
    rewrite !posts_app, parse_trace_no_post.
    pose proof (get_secret_labels_no_post w (secret_resource_path cloud_event)) as Hno.
    fold (label_lookup w cloud_event) in Hno. rewrite Hlookup in Hno. simpl in Hno.
    rewrite Hno. reflexivity.
  - replace (received cloud_event :: parse_trace w ++ t
               ++ [Log (LogLabels labels (required_labels_used w));
                   Log (LogSkipping (secret_resource_path cloud_event))])
      with ((received cloud_event :: parse_trace w ++ t
               ++ [Log (LogLabels labels (required_labels_used w))])
              ++ [Log (LogSkipping (secret_resource_path cloud_event))]).
    + apply last_last.
    + rewrite <- app_comm_cons, <- !app_assoc. reflexivity.
Qed.

(** When the gate answers [True] the trigger client is called once. *)
Lemma gate_success_triggers t labels :
  configured w = true -> label_lookup w cloud_event = (t, inr labels) ->
  check_required_labels labels (required_labels_used w) = inr true ->
  outcome (handle_secret_event w cloud_event) = outcome (trigger_step w cloud_event)
  /\ posts (trace_of (handle_secret_event w cloud_event))
     = posts (trace_of (trigger_step w cloud_event)).
Proof.
  intros Hguard Hlookup Hcheck.
  rewrite (handle_gate_passes _ _ _ _ Hguard Hlookup Hcheck). simpl.
  split; [reflexivity|].
  change (received cloud_event :: ?rest) with ([received cloud_event] ++ rest).
  rewrite !posts_app, parse_trace_no_post.
  pose proof (get_secret_labels_no_post w (secret_resource_path cloud_event)) as Hno.
  fold (label_lookup w cloud_event) in Hno. rewrite Hlookup in Hno. simpl in Hno.
  rewrite Hno. reflexivity.
Qed.

End GatedDispatch.

(** C1, at the input where the code leaves the specification. With
    [REQUIRED_LABELS] set to [{"a": null}] and a secret that has no label,
    the key [a] of the policy is not among the labels fetched for the secret,
    and yet the gate built on [check_required_labels] lets the invocation
    through: the request is sent to the trigger endpoint. *)
Theorem null_requirement_triggers_for_unlabelled_secret :
  json_loads (Scenario.world (Scenario.env_with Scenario.a_null) (Scenario.store_returns ∅))
             Scenario.a_null = Some (PyDict [("a", PyNone)])
  /\ outcome (label_lookup
                (Scenario.world (Scenario.env_with Scenario.a_null) (Scenario.store_returns ∅))
                Scenario.add_version) = inr ∅
  /\ (∅ : gmap string string) !! "a" = None
  /\ posts (trace_of (handle_secret_event
                (Scenario.world (Scenario.env_with Scenario.a_null) (Scenario.store_returns ∅))
                Scenario.add_version))
     = [("https://gitlab.com/api/v4/projects/group%2Fproject/trigger/pipeline",
         {[ "token" := "token"; "ref" := "main";
            "variables[SECRET_EVENT_TYPE]" := "CREATE";
            "variables[SECRET_NAME]" := "my-secret";
            "variables[SECRET_RESOURCE]" := "projects/my-project/secrets/my-secret/versions/1";
            "variables[GCP_PROJECT_ID]" := "my-project";
            "variables[TRIGGERED_BY]" := "user@example.com" ]},
         30%Z)]
  /\ outcome (handle_secret_event
                (Scenario.world (Scenario.env_with Scenario.a_null) (Scenario.store_returns ∅))
                Scenario.add_version) = inr tt.
Proof. repeat split; vm_compute; reflexivity. Qed.

(** ** An unparseable policy *)


Section UnparseablePolicy.

Variable w : World.
Variable cloud_event : CloudEvent.






Lemma with_required_labels_lookup s :
  label_lookup (with_required_labels s w) cloud_event = label_lookup w cloud_event.
Proof. reflexivity. Qed.




End UnparseablePolicy.



(** ** The cases of the test suite, run on the embedding *)

Module Tests.
Import Scenario.

Example test_unknown_method : get_event_type "UnknownMethod" = "UNKNOWN".
Proof. vm_compute. reflexivity. Qed.

Example test_secret_with_dashes :
  extract_secret_name "projects/my-project/secrets/my-complex-secret-name/versions/latest"
  = "my-complex-secret-name".
Proof. vm_compute. reflexivity. Qed.

Example test_malformed_path_no_secrets :
  extract_secret_name "projects/my-project/other/something"
  = "projects/my-project/other/something".
Proof. vm_compute. reflexivity. Qed.

Example test_path_with_latest_version :
  get_secret_resource_path "projects/my-project/secrets/my-secret/versions/latest"
  = "projects/my-project/secrets/my-secret".
Proof. vm_compute. reflexivity. Qed.

Example test_all_labels_match :
  check_required_labels {[ "application" := "n8n"; "environment" := "prod" ]}
    (PyDict [("application", PyStr "n8n")]) = inr true.
Proof. vm_compute. reflexivity. Qed.

Example test_wrong_label_value :
  check_required_labels {[ "application" := "other-app" ]}
    (PyDict [("application", PyStr "n8n")]) = inr false.
Proof. vm_compute. reflexivity. Qed.

Example test_multiple_required_labels_one_missing :
  check_required_labels {[ "application" := "n8n" ]}
    (PyDict [("application", PyStr "n8n"); ("environment", PyStr "prod")]) = inr false.
Proof. vm_compute. reflexivity. Qed.

Example test_empty_secret_labels :
  check_required_labels ∅ (PyDict [("application", PyStr "n8n")]) = inr false.
Proof. vm_compute. reflexivity. Qed.

Example test_returns_empty_dict_when_no_labels :
  get_secret_labels (world ∅ (fun _ => inr None)) "projects/my-project/secrets/my-secret"
  = ([NewSecretManagerClient; GetSecret "projects/my-project/secrets/my-secret"], inr ∅).
Proof. reflexivity. Qed.

Example test_project_id_encoding :
  trigger_url "https://gitlab.com" "group/subgroup/project"
  = "https://gitlab.com/api/v4/projects/group%2Fsubgroup%2Fproject/trigger/pipeline".
Proof. vm_compute. reflexivity. Qed.

Example test_successful_trigger :
  outcome (handle_secret_event
             (world (env_with application_n8n) (store_returns {[ "application" := "n8n" ]}))
             add_version) = inr tt
  /\ (fun '(url, data, _) =>
        (url, data !! "variables[SECRET_EVENT_TYPE]", data !! "variables[SECRET_NAME]"))
     <$> posts (trace_of (handle_secret_event
             (world (env_with application_n8n) (store_returns {[ "application" := "n8n" ]}))
             add_version))
     = [("https://gitlab.com/api/v4/projects/group%2Fproject/trigger/pipeline",
         Some "CREATE", Some "my-secret")].
Proof. split; vm_compute; reflexivity. Qed.

Example test_skips_when_labels_dont_match :
  outcome (handle_secret_event
             (world (env_with application_n8n)
                    (store_returns {[ "application" := "other-app" ]}))
             add_version) = inr tt
  /\ posts (trace_of (handle_secret_event
             (world (env_with application_n8n)
                    (store_returns {[ "application" := "other-app" ]}))
             add_version)) = [].
Proof. split; vm_compute; reflexivity. Qed.

Example test_handles_gitlab_api_error :
  outcome (handle_secret_event
             {| environ := env_with application_n8n; json_loads := loads;
                client_failure := None;
                get_secret := store_returns {[ "application" := "n8n" ]};
                requests_post := fun _ _ _ => inl (RequestException "API error") |}
             add_version) = inl (RequestException "API error").
Proof. vm_compute. reflexivity. Qed.

(** A policy that is JSON but not an object makes the gate itself raise. *)
Example list_policy_raises :
  check_required_labels {[ "application" := "n8n" ]} (PyList []) = inl (AttributeError "items").
Proof. reflexivity. Qed.

End Tests.

(** * Further properties of the module *)

(** ** Resource paths *)

Section MoreResourcePaths.
Import Py PyFacts.

(** Splitting undoes joining when no segment holds the separator. *)
Lemma split_join sep parts :
  parts <> [] ->
  Forall (fun seg => occurs sep seg = false) parts ->
  split sep (join (String sep EmptyString) parts) = parts.
Proof.
  intros Hne Hall. induction Hall as [|seg parts Hseg Hall IH]; [congruence|].
  destruct parts as [|seg' parts].
  - simpl. apply split_no_sep, Hseg.
  - change (join (String sep EmptyString) (seg :: seg' :: parts))
      with (seg +:+ String sep (join (String sep EmptyString) (seg' :: parts))).
    rewrite split_app_sep, (split_no_sep _ _ Hseg), IH by discriminate. reflexivity.
Qed.

Lemma split_segments_Forall sep s :
  Forall (fun seg => occurs sep seg = false) (split sep s).
Proof. apply Forall_forall. intros seg. apply split_segments_no_sep. Qed.

Lemma split_secret_version_path p s version :
  occurs "/" s = false ->
  split "/" ("projects/" +:+ p +:+ "/secrets/" +:+ s +:+ "/versions/" +:+ version)
  = ("projects" :: split "/" p ++ ["secrets"; s]) ++ "versions" :: split "/" version.
Proof.
  intros Hs. rewrite split_secret_path.
  change (s +:+ "/versions/" +:+ version)
    with (s +:+ String "/" ("versions" +:+ String "/" version)).
  rewrite !split_app_sep, (split_no_sep _ _ Hs).
  simpl. rewrite <- !app_assoc. reflexivity.
Qed.

End MoreResourcePaths.

(** X1. The name [get_secret_resource_path] returns never has a segment
    equal to [versions], whatever the input; so applying the function twice
    is the same as applying it once. *)
Theorem get_secret_resource_path_has_no_versions_segment (resource_name : string) :
  ("versions" ∉ Py.split "/" (get_secret_resource_path resource_name))
  /\ get_secret_resource_path (get_secret_resource_path resource_name)
     = get_secret_resource_path resource_name.
Proof.
  assert ("versions" ∉ Py.split "/" (get_secret_resource_path resource_name)) as Hno.
  { destruct (Py.index "versions" (Py.split "/" resource_name)) as [i|] eqn:Hi.
    - apply PyFacts.index_Some in Hi as (pre & rest & Hparts & Hn & _).
      rewrite (get_secret_resource_path_present _ _ _ Hparts Hn).
      destruct pre as [|seg pre].
      + simpl. intros Hin. apply list_elem_of_singleton in Hin. discriminate.
      + rewrite split_join; [exact Hn|discriminate|].
        pose proof (split_segments_Forall "/" resource_name) as Hall.
        rewrite Hparts in Hall. apply Forall_app in Hall as [Hall _]. exact Hall.
    - apply PyFacts.index_None in Hi.
      rewrite (get_secret_resource_path_absent _ Hi). exact Hi. }
  split; [exact Hno|]. apply get_secret_resource_path_absent, Hno.
Qed.

(** X2. For the path of a secret version, [projects/p/secrets/s/versions/v]
    where [p] has no segment [versions] or [secrets] and [s] is a single
    segment other than [versions], [get_secret_resource_path] returns
    [projects/p/secrets/s], and [extract_secret_name] gives [s] on the full
    path and on the stripped one alike. *)
Theorem version_path_strips_to_secret_path (p s version : string) :
  "versions" ∉ Py.split "/" p ->
  "secrets" ∉ Py.split "/" p ->
  Py.occurs "/" s = false ->
  s <> "versions" ->
  get_secret_resource_path
    ("projects/" +:+ p +:+ "/secrets/" +:+ s +:+ "/versions/" +:+ version)
  = "projects/" +:+ p +:+ "/secrets/" +:+ s
  /\ extract_secret_name
       (get_secret_resource_path
          ("projects/" +:+ p +:+ "/secrets/" +:+ s +:+ "/versions/" +:+ version))
     = s
  /\ extract_secret_name
       ("projects/" +:+ p +:+ "/secrets/" +:+ s +:+ "/versions/" +:+ version)
     = s.
Proof.
  intros Hv Hsec Hs Hne.
  assert (get_secret_resource_path
            ("projects/" +:+ p +:+ "/secrets/" +:+ s +:+ "/versions/" +:+ version)
          = "projects/" +:+ p +:+ "/secrets/" +:+ s) as Hstrip.
  { rewrite (get_secret_resource_path_present _
               ("projects" :: Py.split "/" p ++ ["secrets"; s])
               (Py.split "/" version)).
    - rewrite <- (PyFacts.join_split "/" ("projects/" +:+ p +:+ "/secrets/" +:+ s)).
      rewrite split_secret_path, (PyFacts.split_no_sep _ _ Hs). reflexivity.
    - apply split_secret_version_path, Hs.
    - rewrite not_elem_of_cons, not_elem_of_app, !not_elem_of_cons.
      repeat split; try discriminate; try assumption; try congruence.
      apply not_elem_of_nil. }
  assert ("secrets" ∉ "projects" :: Py.split "/" p) as Hpre.
  { apply not_elem_of_cons. split; [discriminate|exact Hsec]. }
  split; [exact Hstrip|]. split.
  - rewrite Hstrip.
    apply (extract_secret_name_following _ ("projects" :: Py.split "/" p) s []);
      [|exact Hpre].
    rewrite split_secret_path, (PyFacts.split_no_sep _ _ Hs). reflexivity.
  - apply (extract_secret_name_following _ ("projects" :: Py.split "/" p) s
             ("versions" :: Py.split "/" version)); [|exact Hpre].
    rewrite (split_secret_version_path _ _ _ Hs).
    simpl. rewrite <- !app_assoc. reflexivity.
Qed.

Lemma version_path_strips_to_secret_path_witness :
  get_secret_resource_path
    ("projects/" +:+ "my-project" +:+ "/secrets/" +:+ "my-secret" +:+ "/versions/" +:+ "latest")
  = "projects/" +:+ "my-project" +:+ "/secrets/" +:+ "my-secret".
Proof.
  assert (forall x, x <> "my-project" -> x ∉ Py.split "/" "my-project") as Hp.
  { intros x Hx Hin. vm_compute in Hin. apply list_elem_of_singleton in Hin. congruence. }
  destruct (version_path_strips_to_secret_path "my-project" "my-secret" "latest")
    as [Hstrip _];
    [apply Hp; discriminate | apply Hp; discriminate | reflexivity | discriminate
    | exact Hstrip].
Defined.

(** X3. [extract_secret_name] returns either its input or one segment of
    it, which holds no [/]; applying it to its own result changes nothing. *)
Theorem extract_secret_name_idempotent (resource_name : string) :
  (extract_secret_name resource_name = resource_name
   \/ (extract_secret_name resource_name ∈ Py.split "/" resource_name
       /\ Py.occurs "/" (extract_secret_name resource_name) = false))
  /\ extract_secret_name (extract_secret_name resource_name)
     = extract_secret_name resource_name.
Proof.
  destruct (Py.index "secrets" (Py.split "/" resource_name)) as [i|] eqn:Hi.
  - apply PyFacts.index_Some in Hi as (pre & rest & Hparts & Hn & _).
    destruct rest as [|x rest].
    + rewrite (extract_secret_name_last _ _ Hparts Hn). split; [left; reflexivity|].
      apply (extract_secret_name_last _ _ Hparts Hn).
    + rewrite (extract_secret_name_following _ _ _ _ Hparts Hn).
      assert (x ∈ Py.split "/" resource_name) as Hin.
      { rewrite Hparts. apply elem_of_app. right. right. left. }
      pose proof (PyFacts.split_segments_no_sep _ _ _ Hin) as Hx.
      split; [right; split; assumption|].
      destruct (decide (x = "secrets")) as [->|Hne].
      * reflexivity.
      * apply extract_secret_name_absent.
        rewrite (PyFacts.split_no_sep _ _ Hx).
        intros Hs. apply list_elem_of_singleton in Hs. congruence.
  - apply PyFacts.index_None in Hi.
    rewrite (extract_secret_name_absent _ Hi). split; [left; reflexivity|].
    apply extract_secret_name_absent, Hi.
Qed.

(** ** The label comparison *)

(** X4. On a dictionary, [check_required_labels] answers [True] exactly when
    every item of the policy is matched: its key carries the same string
    among the labels, or the key is missing and the required value is
    [None].  It answers [False] in every other case and never raises. *)
Theorem check_required_labels_exact
    (secret_labels : gmap string string) (items : list (string * pyval)) :
  (check_required_labels secret_labels (PyDict items) = inr true
   <-> forall key value, (key, value) ∈ items ->
         (exists s, secret_labels !! key = Some s /\ value = PyStr s)
         \/ (secret_labels !! key = None /\ value = PyNone))
  /\ (check_required_labels secret_labels (PyDict items) = inr true
      \/ check_required_labels secret_labels (PyDict items) = inr false).
Proof.
  split.
  - simpl. split.
    + intros [= Hcheck] key value Hin. rewrite check_items_true in Hcheck.
      apply get_differs_false, Hcheck, Hin.
    + intros Hall. f_equal. apply check_items_true. intros key value Hin.
      apply get_differs_false, Hall, Hin.
  - simpl. destruct (check_items secret_labels items); auto.
Qed.

(** X5. The answer of [check_required_labels] depends only on which items
    the policy holds, not on the order in which the loop meets them: the
    early [return False] changes nothing. *)
Theorem check_required_labels_order_independent
    (secret_labels : gmap string string) (items items' : list (string * pyval)) :
  (forall item, item ∈ items <-> item ∈ items') ->
  check_required_labels secret_labels (PyDict items)
  = check_required_labels secret_labels (PyDict items').
Proof.
  intros Hsame. simpl. f_equal.
  destruct (check_items secret_labels items) eqn:H1;
    destruct (check_items secret_labels items') eqn:H2; try reflexivity.
  - rewrite check_items_true in H1.
    assert (check_items secret_labels items' = true) as H3.
    { apply check_items_true. intros key value Hin. apply H1, Hsame, Hin. }
    congruence.
  - rewrite check_items_true in H2.
    assert (check_items secret_labels items = true) as H3.
    { apply check_items_true. intros key value Hin. apply H2, Hsame, Hin. }
    congruence.
Qed.

Lemma check_required_labels_order_independent_witness :
  check_required_labels {[ "application" := "n8n" ]}
    (PyDict [("application", PyStr "n8n"); ("environment", PyStr "prod")])
  = check_required_labels {[ "application" := "n8n" ]}
    (PyDict [("environment", PyStr "prod"); ("application", PyStr "n8n")]).
Proof.
  apply check_required_labels_order_independent.
  intros item. rewrite !elem_of_cons, !elem_of_nil. tauto.
Defined.

(** X6. For a policy whose required values are strings, labels added to a
    secret never turn a match into a mismatch: if the policy is satisfied by
    some labels it is satisfied by every larger set of labels. *)
Theorem check_required_labels_monotone
    (secret_labels more_labels : gmap string string) (required : list (string * string)) :
  secret_labels ⊆ more_labels ->
  check_required_labels secret_labels (PyDict (prod_map id PyStr <$> required)) = inr true ->
  check_required_labels more_labels (PyDict (prod_map id PyStr <$> required)) = inr true.
Proof.
  intros Hsub Hcheck. apply check_required_labels_strings.
  intros key value Hin. eapply lookup_weaken; [|exact Hsub].
  revert key value Hin. apply check_required_labels_strings, Hcheck.
Qed.

Lemma check_required_labels_monotone_witness :
  check_required_labels {[ "application" := "n8n"; "environment" := "prod" ]}
    (PyDict (prod_map id PyStr <$> [("application", "n8n")])) = inr true.
Proof.
  apply (check_required_labels_monotone {[ "application" := "n8n" ]}).
  - apply insert_mono. apply map_empty_subseteq.
  - reflexivity.
Defined.

(** ** The label lookup *)

(** X7. When the client is built and the store answers, [get_secret_labels]
    returns the labels of the secret, or the empty dictionary when the secret
    has none ([None] or empty): it asks the store once, for the name it was
    given, prints nothing and sends nothing to the trigger endpoint. *)
Theorem get_secret_labels_returns_store_labels
    (w : World) (secret_name : string) (stored : option (gmap string string)) :
  client_failure w = None ->
  get_secret w secret_name = inr stored ->
  outcome (get_secret_labels w secret_name) = inr (default ∅ stored)
  /\ trace_of (get_secret_labels w secret_name)
     = [NewSecretManagerClient; GetSecret secret_name]
  /\ lookups (trace_of (get_secret_labels w secret_name)) = [secret_name]
  /\ posts (trace_of (get_secret_labels w secret_name)) = [].
Proof.
  intros Hclient Hget.
  destruct (get_secret_labels_returns w secret_name
              [NewSecretManagerClient; GetSecret secret_name]
              (match stored with
               | Some l => if bool_decide (l = ∅) then ∅ else l
               | None => ∅
               end)) as (_ & stored' & Hget' & Hlabels).
  { apply get_secret_labels_found; assumption. }
  rewrite (get_secret_labels_found _ _ _ Hclient Hget).
  rewrite Hget in Hget'. injection Hget' as <-.
  unfold outcome, trace_of. cbn [fst snd]. rewrite Hlabels. repeat split.
Qed.

Lemma get_secret_labels_returns_store_labels_witness :
  outcome (get_secret_labels (Scenario.world ∅ (fun _ => inr None))
             "projects/my-project/secrets/my-secret") = inr ∅.
Proof.
  destruct (get_secret_labels_returns_store_labels
              (Scenario.world ∅ (fun _ => inr None))
              "projects/my-project/secrets/my-secret" None eq_refl eq_refl)
    as [Hout _].
  exact Hout.
Defined.

(** X8. When the store raises, [get_secret_labels] raises the same exception
    and sends nothing.  It prints the fetch error exactly when the failure is
    an [Exception] raised by [get_secret]; a failure to build the client is
    outside the [try] and is raised without that line and without asking the
    store. *)
Theorem get_secret_labels_reraises (w : World) (secret_name : string) (e : exn) :
  client_failure w = Some e
  \/ (client_failure w = None /\ get_secret w secret_name = inl e) ->
  outcome (get_secret_labels w secret_name) = inl e
  /\ posts (trace_of (get_secret_labels w secret_name)) = []
  /\ (client_failure w = Some e ->
      trace_of (get_secret_labels w secret_name) = [NewSecretManagerClient])
  /\ (client_failure w = None ->
      trace_of (get_secret_labels w secret_name)
      = [NewSecretManagerClient; GetSecret secret_name]
          ++ (if is_Exception e then [Log (LogFetchError e)] else [])).
Proof.
  intros [Hclient|[Hclient Hget]].
  - rewrite (get_secret_labels_no_client _ _ _ Hclient).
    repeat split. rewrite Hclient. discriminate.
  - rewrite (get_secret_labels_raises _ _ _ Hclient Hget).
    unfold outcome, trace_of. cbn [fst snd].
    split; [reflexivity|]. split; [destruct (is_Exception e); reflexivity|].
    split; [rewrite Hclient; discriminate|reflexivity].
Qed.

Lemma get_secret_labels_reraises_witness :
  outcome (get_secret_labels
             (Scenario.world ∅ (Scenario.store_raises (OtherException "Secret not found")))
             "projects/my-project/secrets/nonexistent")
  = inl (OtherException "Secret not found").
Proof.
  destruct (get_secret_labels_reraises
              (Scenario.world ∅ (Scenario.store_raises (OtherException "Secret not found")))
              "projects/my-project/secrets/nonexistent"
              (OtherException "Secret not found")) as [Hout _].
  - right. split; reflexivity.
  - exact Hout.
Defined.

(** ** The invocation as a whole *)

Section MoreHandler.

Variable w : World.
Variable cloud_event : CloudEvent.

Lemma trigger_call_trace :
  trace_of (trigger_call w cloud_event)
  = [Post (fst (fst (trigger_request w cloud_event)))
          (snd (fst (trigger_request w cloud_event))) 30%Z].
Proof.
  unfold trigger_call, trigger_request, trigger_gitlab_pipeline, trace_of, bind, perform.
  cbv zeta. cbn [fst snd].
  destruct (requests_post w _ _ _) as [e|resp]; [reflexivity|].
  simpl. destruct (raise_for_status resp); reflexivity.
Qed.

Lemma trigger_step_raises e :
  outcome (trigger_call w cloud_event) = inl e ->
  trigger_step w cloud_event
  = (trace_of (trigger_call w cloud_event)
       ++ (if is_RequestException e then [Log (LogTriggerError e)] else []),
     inl e).
Proof.
  unfold trigger_step. fold (trigger_call w cloud_event).
  destruct (trigger_call w cloud_event) as [t [e'|result]]; simpl; [|discriminate].
  intros [= ->]. destruct (is_RequestException e); simpl; [reflexivity|].
  rewrite app_nil_r. reflexivity.
Qed.

Lemma trigger_step_returns result :
  outcome (trigger_call w cloud_event) = inr result ->
  trigger_step w cloud_event
  = match py_get result "web_url" (PyStr "N/A") with
    | inr web_url =>
        (trace_of (trigger_call w cloud_event) ++ [Log (LogTriggered web_url)], inr tt)
    | inl e => (trace_of (trigger_call w cloud_event), inl e)
    end.
Proof.
  unfold trigger_step. fold (trigger_call w cloud_event).
  destruct (trigger_call w cloud_event) as [t [e'|result']]; simpl; [discriminate|].
  intros [= ->]. destruct result; simpl; rewrite ?app_nil_r; reflexivity.
Qed.

Lemma trigger_step_lookups : lookups (trace_of (trigger_step w cloud_event)) = [].
Proof.
  destruct (outcome (trigger_call w cloud_event)) as [e|result] eqn:Hcall.
  - rewrite (trigger_step_raises _ Hcall). unfold trace_of at 1. cbn [fst].
    rewrite lookups_app, trigger_call_trace. destruct (is_RequestException e); reflexivity.
  - rewrite (trigger_step_returns _ Hcall).
    destruct (py_get result _ _); unfold trace_of at 1; cbn [fst];
      rewrite ?lookups_app, trigger_call_trace; reflexivity.
Qed.

Lemma parse_trace_lookups : lookups (parse_trace w) = [].
Proof. unfold parse_trace. destruct (json_loads w _); reflexivity. Qed.

(** The lookup of the labels, seen from the store. *)
Lemma label_lookup_cases :
  (exists e, label_lookup w cloud_event = ([NewSecretManagerClient], inl e)
             /\ client_failure w = Some e)
  \/ (exists e, label_lookup w cloud_event
                = ([NewSecretManagerClient; GetSecret (secret_resource_path cloud_event)]
                     ++ (if is_Exception e then [Log (LogFetchError e)] else []), inl e)
                /\ client_failure w = None
                /\ get_secret w (secret_resource_path cloud_event) = inl e)
  \/ (exists stored, label_lookup w cloud_event
                = ([NewSecretManagerClient; GetSecret (secret_resource_path cloud_event)],
                   inr (default ∅ stored))
                /\ client_failure w = None
                /\ get_secret w (secret_resource_path cloud_event) = inr stored).
Proof.
  unfold label_lookup.
  destruct (client_failure w) as [e|] eqn:Hclient.
  - left. exists e. split; [apply get_secret_labels_no_client, Hclient|reflexivity].
  - destruct (get_secret w (secret_resource_path cloud_event)) as [e|stored] eqn:Hget.
    + right. left. exists e. split; [apply get_secret_labels_raises; assumption|auto].
    + right. right. exists stored. split; [|auto].
      rewrite (get_secret_labels_found _ _ _ Hclient Hget). f_equal. f_equal.
      destruct stored as [l|]; [|reflexivity]. simpl. case_bool_decide; congruence.
Qed.

Lemma label_lookup_returns labels :
  outcome (label_lookup w cloud_event) = inr labels ->
  label_lookup w cloud_event
  = ([NewSecretManagerClient; GetSecret (secret_resource_path cloud_event)], inr labels).
Proof.
  destruct label_lookup_cases as [(e & -> & _)|[(e & -> & _)|(stored & -> & _)]];
    simpl; intros [=]. congruence.
Qed.

End MoreHandler.

Lemma posts_log line t : posts (Log line :: t) = posts t.
Proof. reflexivity. Qed.

Lemma lookups_log line t : lookups (Log line :: t) = lookups t.
Proof. reflexivity. Qed.

Ltac count_calls :=
  unfold trace_of, outcome, received; cbn [fst snd];
  rewrite ?posts_log, ?lookups_log;
  rewrite ?posts_app, ?lookups_app, ?parse_trace_no_post, ?parse_trace_lookups;
  repeat match goal with
         | |- context [if is_Exception ?e then _ else _] => destruct (is_Exception e)
         end;
  rewrite ?posts_log, ?lookups_log.

(** X9. In every invocation the handler asks the secret store at most once,
    for the resource path stripped of its version, and calls the trigger
    endpoint at most once; a request is sent only in an invocation that asked
    the store, and everything sent to the trigger endpoint comes after the
    lookup. *)
Theorem handler_calls_each_service_at_most_once (w : World) (cloud_event : CloudEvent) :
  (lookups (trace_of (handle_secret_event w cloud_event)) = []
   \/ lookups (trace_of (handle_secret_event w cloud_event))
      = [get_secret_resource_path (event_resource_name cloud_event)])
  /\ (posts (trace_of (handle_secret_event w cloud_event)) = []
      \/ (posts (trace_of (handle_secret_event w cloud_event)) = [trigger_request w cloud_event]
          /\ lookups (trace_of (handle_secret_event w cloud_event))
             = [get_secret_resource_path (event_resource_name cloud_event)]))
  /\ (exists before after,
        trace_of (handle_secret_event w cloud_event) = before ++ after
        /\ posts before = [] /\ lookups after = []).
Proof.
  fold (secret_resource_path cloud_event).
  destruct (configured w) eqn:Hguard.
  - destruct (label_lookup_cases w cloud_event)
      as [(e & Hlookup & _)|[(e & Hlookup & _)|(stored & Hlookup & _)]].
    + rewrite (handle_lookup_raises _ _ _ _ Hguard Hlookup).
      split; [left; count_calls; reflexivity|].
      split; [left; count_calls; reflexivity|].
      eexists _, []. rewrite app_nil_r. split; [reflexivity|].
      split; [count_calls|]; reflexivity.
    + rewrite (handle_lookup_raises _ _ _ _ Hguard Hlookup).
      split; [right; count_calls; reflexivity|].
      split; [left; count_calls; reflexivity|].
      eexists _, []. rewrite app_nil_r. split; [reflexivity|].
      split; [count_calls|]; reflexivity.
    + destruct (check_required_labels (default ∅ stored) (required_labels_used w))
        as [e|[]] eqn:Hcheck.
      * rewrite (handle_check_raises _ _ _ _ _ Hguard Hlookup Hcheck).
        split; [right; count_calls; reflexivity|].
        split; [left; count_calls; reflexivity|].
        eexists _, []. rewrite app_nil_r. split; [reflexivity|].
        split; [count_calls|]; reflexivity.
      * rewrite (handle_gate_passes _ _ _ _ Hguard Hlookup Hcheck).
        pose proof (trigger_step_posts w cloud_event) as Hposts.
        pose proof (trigger_step_lookups w cloud_event) as Hlookups.
        fold (trigger_request w cloud_event) in Hposts.
        unfold trace_of in Hposts, Hlookups.
        split; [right; count_calls; rewrite Hlookups; reflexivity|].
        split.
        { right. split; count_calls; rewrite ?Hposts, ?Hlookups; reflexivity. }
        exists (received cloud_event :: parse_trace w
                  ++ [NewSecretManagerClient; GetSecret (secret_resource_path cloud_event)]
                  ++ [Log (LogLabels (default ∅ stored) (required_labels_used w));
                      Log (LogTriggering (pipeline_variables w cloud_event))]),
               (fst (trigger_step w cloud_event)).
        split; [|split; [count_calls; reflexivity|exact Hlookups]].
        unfold trace_of. cbn [fst].
        rewrite <- (app_comm_cons _ _ (received cloud_event)), <- !app_assoc. reflexivity.
      * rewrite (handle_gate_fails _ _ _ _ Hguard Hlookup Hcheck).
        split; [right; count_calls; reflexivity|].
        split; [left; count_calls; reflexivity|].
        eexists _, []. rewrite app_nil_r. split; [reflexivity|].
        split; [count_calls|]; reflexivity.
  - rewrite (handle_not_configured _ _ Hguard).
    split; [left; reflexivity|]. split; [left; reflexivity|].
    exists [received cloud_event; Log LogMissingEnv], []. repeat split.
Qed.

(** X10. A request reaches the trigger endpoint only in an invocation in
    which both configuration values are set and not empty, the labels of the
    secret were fetched, and [check_required_labels] answered [True] for them
    and the policy in use. *)
Theorem pipeline_triggered_only_through_gate (w : World) (cloud_event : CloudEvent) :
  posts (trace_of (handle_secret_event w cloud_event)) <> [] ->
  falsy (environ w !! "GITLAB_PROJECT_ID") = false
  /\ falsy (environ w !! "GITLAB_TRIGGER_TOKEN") = false
  /\ exists labels,
       outcome (get_secret_labels w
                  (get_secret_resource_path (event_resource_name cloud_event))) = inr labels
       /\ check_required_labels labels (required_labels_used w) = inr true.
Proof.
  intros Hposts.
  destruct (trigger_only_after_gate w cloud_event Hposts) as (Hguard & labels & Hlookup & Hcheck).
  unfold configured in Hguard. apply negb_true_iff, orb_false_iff in Hguard as [Hp Ht].
  split; [exact Hp|]. split; [exact Ht|]. exists labels. split; assumption.
Qed.

Lemma pipeline_triggered_only_through_gate_witness :
  exists labels,
    outcome (get_secret_labels
               (Scenario.world (Scenario.env_with "{}") (Scenario.store_returns ∅))
               (get_secret_resource_path (event_resource_name Scenario.add_version)))
    = inr labels
    /\ check_required_labels labels
         (required_labels_used
            (Scenario.world (Scenario.env_with "{}") (Scenario.store_returns ∅)))
       = inr true.
Proof.
  destruct (pipeline_triggered_only_through_gate
              (Scenario.world (Scenario.env_with "{}") (Scenario.store_returns ∅))
              Scenario.add_version) as (_ & _ & Hgate).
  - intros Hnone. apply (f_equal length) in Hnone. vm_compute in Hnone. discriminate.
  - exact Hgate.
Defined.

(** X11. When the labels are fetched and [check_required_labels] answers
    [False], the invocation is: the received line, the lookup, the line with
    the labels and the policy, and the line that says the secret is skipped.
    It returns normally and nothing is sent to the trigger endpoint. *)
Theorem unmatched_secret_is_skipped
    (w : World) (cloud_event : CloudEvent) (labels : gmap string string) :
  configured w = true ->
  json_loads w (required_labels_json w) <> None ->
  outcome (label_lookup w cloud_event) = inr labels ->
  check_required_labels labels (required_labels_used w) = inr false ->
  handle_secret_event w cloud_event
  = ([Log (LogReceived (event_method_name cloud_event) (event_resource_name cloud_event));
      NewSecretManagerClient;
      GetSecret (get_secret_resource_path (event_resource_name cloud_event));
      Log (LogLabels labels (required_labels_used w));
      Log (LogSkipping (get_secret_resource_path (event_resource_name cloud_event)))],
     inr tt).
Proof.
  intros Hguard Hjson Hlookup%label_lookup_returns Hcheck.
  rewrite (handle_gate_fails _ _ _ _ Hguard Hlookup Hcheck).
  unfold parse_trace. destruct (json_loads w _); [reflexivity|congruence].
Qed.

Lemma unmatched_secret_is_skipped_witness :
  outcome (handle_secret_event
             (Scenario.world (Scenario.env_with Scenario.application_n8n)
                             (Scenario.store_returns {[ "application" := "other-app" ]}))
             Scenario.add_version) = inr tt.
Proof.
  rewrite (unmatched_secret_is_skipped
             (Scenario.world (Scenario.env_with Scenario.application_n8n)
                             (Scenario.store_returns {[ "application" := "other-app" ]}))
             Scenario.add_version {[ "application" := "other-app" ]}).
  - reflexivity.
  - vm_compute. reflexivity.
  - vm_compute. discriminate.
  - vm_compute. reflexivity.
  - vm_compute. reflexivity.
Defined.

(** X12. When the trigger client raises, at the request, at the status
    check or while reading the body, the handler raises the same exception
    after the one request it sent.  It prints the trigger-error line exactly
    when the exception is a [RequestException]. *)
Theorem trigger_failure_propagates
    (w : World) (cloud_event : CloudEvent) (labels : gmap string string) (e : exn) :
  configured w = true ->
  outcome (label_lookup w cloud_event) = inr labels ->
  check_required_labels labels (required_labels_used w) = inr true ->
  outcome (trigger_call w cloud_event) = inl e ->
  outcome (handle_secret_event w cloud_event) = inl e
  /\ posts (trace_of (handle_secret_event w cloud_event)) = [trigger_request w cloud_event]
  /\ List.filter is_trigger_error_log (trace_of (handle_secret_event w cloud_event))
     = (if is_RequestException e then [Log (LogTriggerError e)] else []).
Proof.
  intros Hguard Hlookup%label_lookup_returns Hcheck Hcall.
  rewrite (handle_gate_passes _ _ _ _ Hguard Hlookup Hcheck).
  rewrite (trigger_step_raises _ _ _ Hcall), trigger_call_trace.
  unfold outcome, trace_of. cbn [fst snd]. split; [reflexivity|]. split.
  - unfold received. rewrite posts_log, posts_app, parse_trace_no_post.
    unfold trigger_request. destruct (is_RequestException e); reflexivity.
  - unfold received, parse_trace.
    destruct (json_loads w _); destruct (is_RequestException e); reflexivity.
Qed.

Lemma trigger_failure_propagates_witness :
  outcome (handle_secret_event
             {| environ := Scenario.env_with "{}"; json_loads := Scenario.loads;
                client_failure := None;
                get_secret := Scenario.store_returns ∅;
                requests_post := fun _ _ _ => inl (RequestException "API error") |}
             Scenario.add_version) = inl (RequestException "API error").
Proof.
  destruct (trigger_failure_propagates
              {| environ := Scenario.env_with "{}"; json_loads := Scenario.loads;
                 client_failure := None;
                 get_secret := Scenario.store_returns ∅;
                 requests_post := fun _ _ _ => inl (RequestException "API error") |}
              Scenario.add_version ∅ (RequestException "API error")) as [Hout _].
  - vm_compute. reflexivity.
  - vm_compute. reflexivity.
  - vm_compute. reflexivity.
  - vm_compute. reflexivity.
  - exact Hout.
Defined.

(** ** The request and the answer of the trigger endpoint *)

Section MoreTrigger.

Variable w : World.

Lemma trigger_gitlab_pipeline_outcome gitlab_url project_id trigger_token ref variables :
  outcome (trigger_gitlab_pipeline w gitlab_url project_id trigger_token ref variables)
  = match requests_post w (trigger_url gitlab_url project_id)
                        (trigger_payload trigger_token ref variables) 30%Z with
    | inl e => inl e
    | inr resp =>
        match raise_for_status resp with
        | Some e => inl e
        | None => json resp
        end
    end.
Proof.
  unfold trigger_gitlab_pipeline, outcome, bind, perform. cbv zeta.
  destruct (requests_post w _ _ _) as [e|resp]; [reflexivity|].
  simpl. destruct (raise_for_status resp); reflexivity.
Qed.

Lemma trigger_payload_variable trigger_token ref (variables : gmap string string) key :
  trigger_payload trigger_token ref variables !! variables_field key = variables !! key.
Proof.
  destruct (trigger_payload_union trigger_token ref variables) as [-> _].
  rewrite lookup_union, top_level_fields_variable.
  rewrite lookup_kmap by apply _. destruct (variables !! key); reflexivity.
Qed.

Lemma trigger_payload_top_level trigger_token ref (variables : gmap string string) field :
  field = "token" \/ field = "ref" ->
  trigger_payload trigger_token ref variables !! field
  = top_level_fields trigger_token ref !! field.
Proof.
  intros Hfield.
  destruct (trigger_payload_union trigger_token ref variables) as [-> _].
  rewrite lookup_union.
  assert ((kmap variables_field variables : gmap string string) !! field = None) as ->.
  { apply lookup_kmap_None; [apply _|]. intros key ->. exfalso.
    destruct Hfield as [Hf|Hf];
      [exact (variables_field_not_token _ Hf)|exact (variables_field_not_ref _ Hf)]. }
  destruct (top_level_fields trigger_token ref !! field); reflexivity.
Qed.

Lemma pipeline_variables_size cloud_event : size (pipeline_variables w cloud_event) = 5%nat.
Proof.
  unfold pipeline_variables.
  rewrite !map_size_insert_None, map_size_singleton; [reflexivity|..];
    repeat (rewrite lookup_insert_ne by discriminate);
    apply lookup_singleton_ne; discriminate.
Qed.

Lemma or_empty (v : option string) :
  (if falsy v then "" else the_str v) = default "" v.
Proof.
  destruct v as [s|]; [|reflexivity]. simpl.
  destruct (String.eqb s "") eqn:Hs; [|reflexivity].
  apply String.eqb_eq in Hs. congruence.
Qed.

Lemma configured_of_values project_id trigger_token :
  environ w !! "GITLAB_PROJECT_ID" = Some project_id -> project_id <> "" ->
  environ w !! "GITLAB_TRIGGER_TOKEN" = Some trigger_token -> trigger_token <> "" ->
  configured w = true.
Proof.
  intros Hp Hpne Ht Htne. unfold configured. rewrite Hp, Ht. simpl.
  apply String.eqb_neq in Hpne, Htne. rewrite Hpne, Htne. reflexivity.
Qed.

End MoreTrigger.

(** X13. When the gate is passed the handler sends one request.  Its URL is
    the configured base ([https://gitlab.com] by default), the fixed path and
    the percent-encoded project; its form has exactly seven fields: the
    token, the ref ([main] by default) and the five variables, namely the
    event type of the method, the short name and the full resource name of
    the secret, [GCP_PROJECT_ID] (empty when not configured) and the caller. *)
Theorem matched_secret_request
    (w : World) (cloud_event : CloudEvent) (labels : gmap string string)
    (project_id trigger_token : string) :
  environ w !! "GITLAB_PROJECT_ID" = Some project_id -> project_id <> "" ->
  environ w !! "GITLAB_TRIGGER_TOKEN" = Some trigger_token -> trigger_token <> "" ->
  outcome (label_lookup w cloud_event) = inr labels ->
  check_required_labels labels (required_labels_used w) = inr true ->
  exists payload : gmap string string,
    posts (trace_of (handle_secret_event w cloud_event))
    = [(default "https://gitlab.com" (environ w !! "GITLAB_URL")
          +:+ "/api/v4/projects/" +:+ Urllib.quote project_id +:+ "/trigger/pipeline",
        payload, 30%Z)]
    /\ payload !! "token" = Some trigger_token
    /\ payload !! "ref" = Some (default "main" (environ w !! "GITLAB_REF"))
    /\ payload !! "variables[SECRET_EVENT_TYPE]"
       = Some (get_event_type (event_method_name cloud_event))
    /\ payload !! "variables[SECRET_NAME]"
       = Some (extract_secret_name (event_resource_name cloud_event))
    /\ payload !! "variables[SECRET_RESOURCE]" = Some (event_resource_name cloud_event)
    /\ payload !! "variables[GCP_PROJECT_ID]"
       = Some (default "" (environ w !! "GCP_PROJECT_ID"))
    /\ payload !! "variables[TRIGGERED_BY]" = Some (event_caller_email cloud_event)
    /\ size payload = 7%nat.
Proof.
  intros Hp Hpne Ht Htne Hlookup%label_lookup_returns Hcheck.
  pose proof (configured_of_values w _ _ Hp Hpne Ht Htne) as Hguard.
  exists (trigger_payload trigger_token (default "main" (environ w !! "GITLAB_REF"))
            (pipeline_variables w cloud_event)).
  split.
  { destruct (gate_success_triggers w cloud_event _ _ Hguard Hlookup Hcheck) as [_ ->].
    rewrite trigger_step_posts, Hp, Ht. reflexivity. }
  split; [rewrite trigger_payload_top_level by auto; reflexivity|].
  split; [rewrite trigger_payload_top_level by auto; reflexivity|].
  change "variables[SECRET_EVENT_TYPE]" with (variables_field "SECRET_EVENT_TYPE").
  change "variables[SECRET_NAME]" with (variables_field "SECRET_NAME").
  change "variables[SECRET_RESOURCE]" with (variables_field "SECRET_RESOURCE").
  change "variables[GCP_PROJECT_ID]" with (variables_field "GCP_PROJECT_ID").
  change "variables[TRIGGERED_BY]" with (variables_field "TRIGGERED_BY").
  rewrite !trigger_payload_variable.
  destruct (trigger_payload_union trigger_token
              (default "main" (environ w !! "GITLAB_REF"))
              (pipeline_variables w cloud_event)) as [_ ->].
  rewrite pipeline_variables_size.
  unfold pipeline_variables. rewrite or_empty.
  repeat split;
    repeat (rewrite lookup_insert_ne by discriminate);
    rewrite ?lookup_insert_eq, ?lookup_singleton_eq; reflexivity.
Qed.

Lemma matched_secret_request_witness :
  exists payload : gmap string string,
    posts (trace_of (handle_secret_event
                       (Scenario.world (Scenario.env_with "{}") (Scenario.store_returns ∅))
                       Scenario.add_version))
    = [("https://gitlab.com/api/v4/projects/group%2Fproject/trigger/pipeline",
        payload, 30%Z)]
    /\ payload !! "variables[SECRET_NAME]" = Some "my-secret"
    /\ size payload = 7%nat.
Proof.
  destruct (matched_secret_request
              (Scenario.world (Scenario.env_with "{}") (Scenario.store_returns ∅))
              Scenario.add_version ∅ "group/project" "token")
    as (payload & Hposts & _ & _ & _ & Hname & _ & _ & _ & Hsize).
  - vm_compute. reflexivity.
  - discriminate.
  - vm_compute. reflexivity.
  - discriminate.
  - vm_compute. reflexivity.
  - vm_compute. reflexivity.
  - exists payload. split; [exact Hposts|]. split; [exact Hname|exact Hsize].
Defined.

(** X14. [trigger_gitlab_pipeline] tests the status before it reads the
    body: an exception of [requests.post] or of [raise_for_status] is the
    result whatever [response.json()] would give, and only a response whose
    status check passes yields the parsed body (or the exception of parsing
    it). *)
Theorem trigger_gitlab_pipeline_checks_status_first
    (w : World) (gitlab_url project_id trigger_token ref : string)
    (variables : gmap string string) :
  (forall e,
      requests_post w (trigger_url gitlab_url project_id)
        (trigger_payload trigger_token ref variables) 30%Z = inl e ->
      outcome (trigger_gitlab_pipeline w gitlab_url project_id trigger_token ref variables)
      = inl e)
  /\ (forall resp e,
      requests_post w (trigger_url gitlab_url project_id)
        (trigger_payload trigger_token ref variables) 30%Z = inr resp ->
      raise_for_status resp = Some e ->
      outcome (trigger_gitlab_pipeline w gitlab_url project_id trigger_token ref variables)
      = inl e)
  /\ (forall resp,
      requests_post w (trigger_url gitlab_url project_id)
        (trigger_payload trigger_token ref variables) 30%Z = inr resp ->
      raise_for_status resp = None ->
      outcome (trigger_gitlab_pipeline w gitlab_url project_id trigger_token ref variables)
      = json resp).
Proof.
  rewrite trigger_gitlab_pipeline_outcome. repeat split.
  - intros e ->. reflexivity.
  - intros resp e -> ->. reflexivity.
  - intros resp -> ->. reflexivity.
Qed.

(** X15. When the gate is passed and the endpoint answers with a passing
    status and a dictionary, the handler returns normally after one request,
    and its last line reports the [web_url] of the answer, or [N/A] when the
    answer has no such key. *)
Theorem triggered_pipeline_is_reported
    (w : World) (cloud_event : CloudEvent) (labels : gmap string string)
    (resp : response) (items : list (string * pyval)) :
  configured w = true ->
  outcome (label_lookup w cloud_event) = inr labels ->
  check_required_labels labels (required_labels_used w) = inr true ->
  requests_post w (fst (fst (trigger_request w cloud_event)))
                  (snd (fst (trigger_request w cloud_event))) 30%Z = inr resp ->
  raise_for_status resp = None ->
  json resp = inr (PyDict items) ->
  outcome (handle_secret_event w cloud_event) = inr tt
  /\ posts (trace_of (handle_secret_event w cloud_event)) = [trigger_request w cloud_event]
  /\ List.last (trace_of (handle_secret_event w cloud_event)) NewSecretManagerClient
     = Log (LogTriggered (default (PyStr "N/A") (assoc "web_url" items))).
Proof.
  intros Hguard Hlookup%label_lookup_returns Hcheck Hpost Hstatus Hjson.
  assert (outcome (trigger_call w cloud_event) = inr (PyDict items)) as Hcall.
  { unfold trigger_call. rewrite trigger_gitlab_pipeline_outcome.
    unfold trigger_request in Hpost. cbn [fst snd] in Hpost.
    rewrite Hpost, Hstatus. exact Hjson. }
  rewrite (handle_gate_passes _ _ _ _ Hguard Hlookup Hcheck).
  rewrite (trigger_step_returns _ _ _ Hcall), trigger_call_trace.
  unfold outcome, trace_of, py_get. cbn [fst snd]. split; [reflexivity|]. split.
  - unfold received. rewrite posts_log, posts_app, parse_trace_no_post. reflexivity.
  - rewrite app_comm_cons, !app_assoc. apply last_last.
Qed.

Lemma triggered_pipeline_is_reported_witness :
  outcome (handle_secret_event
             (Scenario.world (Scenario.env_with "{}") (Scenario.store_returns ∅))
             Scenario.add_version) = inr tt.
Proof.
  destruct (triggered_pipeline_is_reported
              (Scenario.world (Scenario.env_with "{}") (Scenario.store_returns ∅))
              Scenario.add_version ∅
              {| raise_for_status := None;
                 json := inr (PyDict [("web_url", PyStr "https://gitlab.com/pipelines/1")]) |}
              [("web_url", PyStr "https://gitlab.com/pipelines/1")]) as [Hout _].
  - vm_compute. reflexivity.
  - vm_compute. reflexivity.
  - vm_compute. reflexivity.
  - reflexivity.
  - reflexivity.
  - reflexivity.
  - exact Hout.
Defined.

(** X16. When the endpoint answers with a passing status and a body that is
    JSON but not an object, reading [web_url] raises [AttributeError]: the
    invocation fails although its one request was sent and accepted, and the
    trigger-error line is not printed, since that exception is not a
    [RequestException]. *)
Theorem non_object_answer_fails_after_trigger
    (w : World) (cloud_event : CloudEvent) (labels : gmap string string)
    (resp : response) (body : pyval) :
  configured w = true ->
  outcome (label_lookup w cloud_event) = inr labels ->
  check_required_labels labels (required_labels_used w) = inr true ->
  requests_post w (fst (fst (trigger_request w cloud_event)))
                  (snd (fst (trigger_request w cloud_event))) 30%Z = inr resp ->
  raise_for_status resp = None ->
  json resp = inr body ->
  is_dict body = false ->
  outcome (handle_secret_event w cloud_event) = inl (AttributeError "get")
  /\ posts (trace_of (handle_secret_event w cloud_event)) = [trigger_request w cloud_event]
  /\ List.filter is_trigger_error_log (trace_of (handle_secret_event w cloud_event)) = [].
Proof.
  intros Hguard Hlookup%label_lookup_returns Hcheck Hpost Hstatus Hjson Hbody.
  assert (outcome (trigger_call w cloud_event) = inr body) as Hcall.
  { unfold trigger_call. rewrite trigger_gitlab_pipeline_outcome.
    unfold trigger_request in Hpost. cbn [fst snd] in Hpost.
    rewrite Hpost, Hstatus. exact Hjson. }
  assert (py_get body "web_url" (PyStr "N/A") = inl (AttributeError "get")) as Hget.
  { destruct body; try reflexivity. discriminate. }
  rewrite (handle_gate_passes _ _ _ _ Hguard Hlookup Hcheck).
  rewrite (trigger_step_returns _ _ _ Hcall), Hget, trigger_call_trace.
  unfold outcome, trace_of. cbn [fst snd]. split; [reflexivity|]. split.
  - unfold received. rewrite posts_log, posts_app, parse_trace_no_post. reflexivity.
  - unfold received, parse_trace. destruct (json_loads w _); reflexivity.
Qed.

Lemma non_object_answer_fails_after_trigger_witness :
  outcome (handle_secret_event
             {| environ := Scenario.env_with "{}"; json_loads := Scenario.loads;
                client_failure := None;
                get_secret := Scenario.store_returns ∅;
                requests_post := fun _ _ _ =>
                  inr {| raise_for_status := None; json := inr (PyList []) |} |}
             Scenario.add_version) = inl (AttributeError "get").
Proof.
  destruct (non_object_answer_fails_after_trigger
              {| environ := Scenario.env_with "{}"; json_loads := Scenario.loads;
                 client_failure := None;
                 get_secret := Scenario.store_returns ∅;
                 requests_post := fun _ _ _ =>
                   inr {| raise_for_status := None; json := inr (PyList []) |} |}
              Scenario.add_version ∅
              {| raise_for_status := None; json := inr (PyList []) |} (PyList []))
    as [Hout _].
  - vm_compute. reflexivity.
  - vm_compute. reflexivity.
  - vm_compute. reflexivity.
  - reflexivity.
  - reflexivity.
  - reflexivity.
  - reflexivity.
  - exact Hout.
Defined.



(** ** The event and the environment *)

Section MoreEvent.
Import Py PyFacts.

Variable w : World.
Variable cloud_event : CloudEvent.




End MoreEvent.





(** ** The encoded project in the URL *)

Section MoreQuote.
Import Py PyFacts.

Lemma quote_cons c s :
  Urllib.quote (String c s)
  = (if Urllib.always_safe c then String c EmptyString else Urllib.escape c)
      +:+ Urllib.quote s.
Proof. reflexivity. Qed.

Lemma hex_digit_value n :
  (n < 16)%N ->
  N_of_ascii (Urllib.hex_digit n) = (if N.ltb n 10 then 48 + n else 55 + n)%N.
Proof.
  intros Hn. unfold Urllib.hex_digit.
  destruct (N.ltb n 10); apply N_ascii_embedding; lia.
Qed.

Lemma hex_digit_inj a b :
  (a < 16)%N -> (b < 16)%N -> Urllib.hex_digit a = Urllib.hex_digit b -> a = b.
Proof.
  intros Ha Hb Heq. apply (f_equal N_of_ascii) in Heq.
  rewrite !hex_digit_value in Heq by assumption.
  destruct (N.ltb_spec a 10), (N.ltb_spec b 10); lia.
Qed.

Lemma escape_inj c d : Urllib.escape c = Urllib.escape d -> c = d.
Proof.
  unfold Urllib.escape. intros [= Hhi Hlo].
  pose proof (N_ascii_bounded c) as Hc. pose proof (N_ascii_bounded d) as Hd.
  apply hex_digit_inj in Hhi;
    [|apply N.Div0.div_lt_upper_bound; lia|apply N.Div0.div_lt_upper_bound; lia].
  apply hex_digit_inj in Hlo; [|apply N.mod_lt; lia|apply N.mod_lt; lia].
  rewrite <- (ascii_N_embedding c), <- (ascii_N_embedding d). f_equal.
  rewrite (N.div_mod' (N_of_ascii c) 16), (N.div_mod' (N_of_ascii d) 16). congruence.
Qed.

Lemma percent_not_safe : Urllib.always_safe "%" = false.
Proof. reflexivity. Qed.

(** [quote] can be read back: two strings with the same encoding are equal. *)
Lemma quote_inj a b : Urllib.quote a = Urllib.quote b -> a = b.
Proof.
  revert b. induction a as [|c a IH]; intros [|d b]; rewrite ?quote_cons.
  - reflexivity.
  - destruct (Urllib.always_safe d); discriminate.
  - destruct (Urllib.always_safe c); discriminate.
  - destruct (Urllib.always_safe c) eqn:Hc, (Urllib.always_safe d) eqn:Hd.
    + rewrite !append_cons, !append_nil. intros [= -> Hrest]. f_equal. auto.
    + unfold Urllib.escape. rewrite !append_cons, !append_nil. intros [= -> _].
      rewrite percent_not_safe in Hc. discriminate.
    + unfold Urllib.escape. rewrite !append_cons, !append_nil. intros [= <- _].
      rewrite percent_not_safe in Hd. discriminate.
    + intros Heq.
      assert (Urllib.escape c = Urllib.escape d /\ Urllib.quote a = Urllib.quote b)
        as [Hesc Hrest].
      { unfold Urllib.escape in *. rewrite !append_cons, !append_nil in Heq.
        injection Heq as Hhi Hlo Hrest. rewrite Hhi, Hlo. auto. }
      f_equal; [apply escape_inj, Hesc|auto].
Qed.

Lemma length_append (a b : string) :
  String.length (a +:+ b) = (String.length a + String.length b)%nat.
Proof.
  induction a as [|c a IH]; [reflexivity|].
  rewrite append_cons. simpl. rewrite IH. reflexivity.
Qed.

Lemma append_inj_r (a b suffix : string) : a +:+ suffix = b +:+ suffix -> a = b.
Proof.
  revert b. induction a as [|c a IH]; intros [|d b] Heq.
  - reflexivity.
  - apply (f_equal String.length) in Heq. rewrite append_nil, !length_append in Heq.
    simpl in Heq. lia.
  - apply (f_equal String.length) in Heq. rewrite append_nil, !length_append in Heq.
    simpl in Heq. lia.
  - rewrite !append_cons in Heq. injection Heq as -> Heq. f_equal. auto.
Qed.

Lemma quote_all_safe s : all_always_safe s = true -> Urllib.quote s = s.
Proof.
  induction s as [|c s IH]; [reflexivity|].
  simpl. intros [Hc Hs]%andb_true_iff. rewrite Hc, (IH Hs). reflexivity.
Qed.

End MoreQuote.

(** X21. A project identifier made of letters, digits and [_.-~] only, such
    as a numeric project id, is written into the URL as it is. *)
Theorem unreserved_project_is_used_verbatim (gitlab_url project_id : string) :
  all_always_safe project_id = true ->
  Urllib.quote project_id = project_id
  /\ trigger_url gitlab_url project_id
     = gitlab_url +:+ "/api/v4/projects/" +:+ project_id +:+ "/trigger/pipeline".
Proof.
  intros Hsafe. unfold trigger_url. rewrite (quote_all_safe _ Hsafe). auto.
Qed.

Lemma unreserved_project_is_used_verbatim_witness :
  trigger_url "https://gitlab.com" "12345"
  = "https://gitlab.com" +:+ "/api/v4/projects/" +:+ "12345" +:+ "/trigger/pipeline".
Proof.
  destruct (unreserved_project_is_used_verbatim "https://gitlab.com" "12345" eq_refl)
    as [_ Hurl].
  exact Hurl.
Defined.

(** X22. For one base URL, two different project identifiers never give
    the same trigger URL: the percent-encoding loses nothing. *)
Theorem trigger_url_distinguishes_projects (gitlab_url project_id project_id' : string) :
  trigger_url gitlab_url project_id = trigger_url gitlab_url project_id' ->
  project_id = project_id'.
Proof.
  unfold trigger_url. intros Heq.
  apply (inj (String.append gitlab_url)) in Heq.
  apply (inj (String.append "/api/v4/projects/")) in Heq.
  apply append_inj_r in Heq. apply quote_inj, Heq.
Qed.

Lemma trigger_url_distinguishes_projects_witness :
  "group/project" = "group/project".
Proof.
  apply (trigger_url_distinguishes_projects "https://gitlab.com"). reflexivity.
Defined.

(** ** The policy in the handler *)

(** X23. With a policy whose required values are all strings, a request
    reaches the trigger endpoint only when every required key is among the
    labels fetched for the secret, with exactly the required value. *)
Theorem string_policy_gates_the_trigger
    (w : World) (cloud_event : CloudEvent) (required : list (string * string)) :
  json_loads w (required_labels_json w) = Some (PyDict (prod_map id PyStr <$> required)) ->
  posts (trace_of (handle_secret_event w cloud_event)) <> [] ->
  exists labels,
    outcome (get_secret_labels w
               (get_secret_resource_path (event_resource_name cloud_event))) = inr labels
    /\ forall key value, (key, value) ∈ required -> labels !! key = Some value.
Proof.
  intros Hjson Hposts.
  destruct (trigger_only_after_gate w cloud_event Hposts) as (_ & labels & Hlookup & Hcheck).
  exists labels. split; [exact Hlookup|].
  unfold required_labels_used in Hcheck. rewrite Hjson in Hcheck.
  apply check_required_labels_strings, Hcheck.
Qed.

Lemma string_policy_gates_the_trigger_witness :
  exists labels : gmap string string,
    outcome (get_secret_labels
               (Scenario.world (Scenario.env_with Scenario.application_n8n)
                               (Scenario.store_returns {[ "application" := "n8n" ]}))
               (get_secret_resource_path (event_resource_name Scenario.add_version)))
    = inr labels
    /\ labels !! "application" = Some "n8n".
Proof.
  destruct (string_policy_gates_the_trigger
              (Scenario.world (Scenario.env_with Scenario.application_n8n)
                              (Scenario.store_returns {[ "application" := "n8n" ]}))
              Scenario.add_version [("application", "n8n")])
    as (labels & Hlookup & Hall).
  - vm_compute. reflexivity.
  - intros Hnone. apply (f_equal length) in Hnone. vm_compute in Hnone. discriminate.
  - exists labels. split; [exact Hlookup|]. apply Hall. left.
Defined.

(** X24. When [REQUIRED_LABELS] is not set, the policy is the empty
    dictionary read from the default text [{}]: every secret whose labels
    can be fetched passes the gate, and the request is sent. *)
Theorem unset_policy_triggers_for_every_secret
    (w : World) (cloud_event : CloudEvent) (labels : gmap string string) :
  environ w !! "REQUIRED_LABELS" = None ->
  json_loads w "{}" = Some (PyDict []) ->
  configured w = true ->
  outcome (label_lookup w cloud_event) = inr labels ->
  required_labels_used w = PyDict []
  /\ posts (trace_of (handle_secret_event w cloud_event)) = [trigger_request w cloud_event]
  /\ outcome (handle_secret_event w cloud_event) = outcome (trigger_step w cloud_event).
Proof.
  intros Henv Hjson Hguard Hlookup%label_lookup_returns.
  assert (required_labels_used w = PyDict []) as Hused.
  { unfold required_labels_used, required_labels_json. rewrite Henv. simpl.
    rewrite Hjson. reflexivity. }
  assert (check_required_labels labels (required_labels_used w) = inr true) as Hcheck
    by (rewrite Hused; reflexivity).
  split; [exact Hused|].
  destruct (gate_success_triggers w cloud_event _ _ Hguard Hlookup Hcheck) as [-> ->].
  split; [apply trigger_step_posts|reflexivity].
Qed.

Lemma unset_policy_triggers_for_every_secret_witness :
  posts (trace_of (handle_secret_event
                     (Scenario.world {[ "GITLAB_PROJECT_ID" := "group/project";
                                        "GITLAB_TRIGGER_TOKEN" := "token" ]}
                                     (Scenario.store_returns ∅))
                     Scenario.add_version))
  = [trigger_request
       (Scenario.world {[ "GITLAB_PROJECT_ID" := "group/project";
                          "GITLAB_TRIGGER_TOKEN" := "token" ]}
                       (Scenario.store_returns ∅))
       Scenario.add_version].
Proof.
  destruct (unset_policy_triggers_for_every_secret
              (Scenario.world {[ "GITLAB_PROJECT_ID" := "group/project";
                                 "GITLAB_TRIGGER_TOKEN" := "token" ]}
                              (Scenario.store_returns ∅))
              Scenario.add_version ∅) as (_ & Hposts & _).
  - vm_compute. reflexivity.
  - reflexivity.
  - vm_compute. reflexivity.
  - vm_compute. reflexivity.
  - exact Hposts.
Defined.
